(** * RectangleRenderer: background rectangles and selection geometry

    A shallow embedding of [src/renderer/webgl/RectangleRenderer.ts]
    (xterm.js WebGL renderer) and the properties of its two geometry
    builders, [updateBackgrounds] and [updateSelection].

    Conventions of the embedding.
    - JavaScript integers are [Z]; the contents of a [Float32Array] are
      rationals [Q] (the number that is written; the rounding of a value to
      single precision is not modelled).
    - A typed array is a [list]; a write out of range is dropped, as a typed
      array does, and a read out of range is [None] ([undefined]).
    - A method that can throw returns [option]: [None] is the exception.
    - The collaborators the class only reads ([_terminal], [_dimensions],
      [_colorManager]) form the record [Env], passed to every method. *)

From Stdlib Require Import ZArith QArith Lia.
From stdpp Require Import base option list sorting.

Local Open Scope Z_scope.

(** ** Data model *)

Record IColor := { rgba : Z }.

Record IColorSet := {
  foreground : IColor;
  background : IColor;
  selection : IColor;
  ansi : list IColor
}.

Record ITerminal := { rows : Z; cols : Z }.

Record IRenderDimensions := { scaledCellWidth : Z; scaledCellHeight : Z }.

Record Env := {
  _terminal : ITerminal;
  _colorManager : IColorSet;
  _dimensions : IRenderDimensions
}.

(** [IRenderModel.cells]: four entries per cell, the background code at
    index 2 of each group. *)
Record IRenderModel := { cells : list Z }.

Record ISelectionRenderModel := {
  hasSelection : bool;
  viewportStartRow : Z;
  viewportEndRow : Z;
  viewportCappedStartRow : Z;
  viewportCappedEndRow : Z;
  startCol : Z;
  endCol : Z
}.

Record IVertices := { attributes : list Q; count : Z }.

Record ISelectionVertices := { vertices : list Q; outlineIndices : list Z }.

(** A [Float32Array] of exactly four numbers, as [_colorToFloat32Array]
    builds it. *)
Definition Float4 : Type := (Q * Q * Q * Q)%type.

Record RectangleRenderer := {
  _bgFloat : Float4;
  _selectionFloat : Float4;
  _vertices : IVertices;
  _selectionVertices : ISelectionVertices
}.

(** ** Constants *)

Definition INDICES_PER_RECTANGLE : Z := 8.
Definition ATTRIBUTES_PER_SELECTION_VERTEX : Z := 4.
Definition INITIAL_BUFFER_RECTANGLE_CAPACITY : Z := 20 * INDICES_PER_RECTANGLE.
Definition SELECTION_VERTEX_COUNT : Z := 10.
Definition SELECTION_OUTLINE_INDEX_COUNT : Z := 16.

(** Modelled from the spec: the constants [DEFAULT_COLOR] and
    [INVERTED_DEFAULT_COLOR] are imported from [renderer/atlas/Types].  The
    spec makes them two sentinels besides the indexed palette entries
    0-255; they are taken as the next two integers. *)
Definition DEFAULT_COLOR : Z := 256.
Definition INVERTED_DEFAULT_COLOR : Z := 257.

(** Modelled from the spec: [is256Color] is imported from
    [renderer/atlas/CharAtlasUtils].  The spec calls a code an indexed
    palette entry when it lies in 0-255. *)
Definition is256Color (colorCode : Z) : bool :=
  (0 <=? colorCode) && (colorCode <? 256).

(** ** Numbers and typed arrays *)

Definition num (z : Z) : Q := inject_Z z.

(** [ToInt32], applied by [>>] to its left operand. *)
Definition toInt32 (z : Z) : Z := (z + 2 ^ 31) mod 2 ^ 32 - 2 ^ 31.

(** [((rgba >> shift) & 0xFF) / 255] *)
Definition channel (c : IColor) (shift : Z) : Q :=
  Qmake (Z.land (Z.shiftr (toInt32 (rgba c)) shift) 255) 255.

(** [array[i]] *)
Definition array_get {A} (array : list A) (i : Z) : option A :=
  if i <? 0 then None else array !! Z.to_nat i.

(** [array[i] = v] on a typed array: no effect outside the array. *)
Definition array_store {A} (array : list A) (i : Z) (v : A) : list A :=
  if i <? 0 then array else <[Z.to_nat i := v]> array.

(** [target.set(source)]: a [RangeError] when [source] does not fit. *)
Definition typed_set {A} (target source : list A) : option (list A) :=
  if (length target <? length source)%nat then None
  else Some (source ++ drop (length source) target).

(** Modelled from the spec: [fill] is imported from
    [common/TypedArrayUtils].  The spec has it zero-fill the vertex buffer;
    it is taken as [TypedArray.prototype.fill(value, start)], which
    overwrites every element from [start] to the end. *)
Definition fill {A} (array : list A) (value : A) (start : nat) : list A :=
  take start array ++ replicate (length array - start)%nat value.

(** Modelled from the spec: [expandFloat32Array] is imported from
    [WebglUtils].  Spec 4.1: if the current length is below [minFloats],
    reallocate to a buffer at least [minFloats] long (doubling or growing
    to the requested size, whichever is larger) and copy the existing
    contents; a fresh [Float32Array] is zero-filled. *)
Definition expandFloat32Array (source : list Q) (minFloats : Z) : list Q :=
  if Z.of_nat (length source) <? minFloats then
    source ++
    replicate (Z.to_nat (Z.max (2 * Z.of_nat (length source)) minFloats)
               - length source)%nat (num 0)
  else source.

(** ** Record updates *)

Definition with_attributes (v : IVertices) (a : list Q) : IVertices :=
  {| attributes := a; count := count v |}.

Definition with_count (v : IVertices) (c : Z) : IVertices :=
  {| attributes := attributes v; count := c |}.

Definition with_vertices (this : RectangleRenderer) (v : IVertices)
  : RectangleRenderer :=
  {| _bgFloat := _bgFloat this; _selectionFloat := _selectionFloat this;
     _vertices := v; _selectionVertices := _selectionVertices this |}.

Definition with_selectionVertices (this : RectangleRenderer)
    (sv : ISelectionVertices) : RectangleRenderer :=
  {| _bgFloat := _bgFloat this; _selectionFloat := _selectionFloat this;
     _vertices := _vertices this; _selectionVertices := sv |}.

(** ** Rectangle writers *)

Definition _addRectangle (array : list Q) (offset : Z)
    (x1 y1 width height r g b a : Q) : list Q :=
  let array := array_store array offset x1 in
  let array := array_store array (offset + 1) y1 in
  let array := array_store array (offset + 2) width in
  let array := array_store array (offset + 3) height in
  let array := array_store array (offset + 4) r in
  let array := array_store array (offset + 5) g in
  let array := array_store array (offset + 6) b in
  array_store array (offset + 7) a.

Definition _addRectangleFloat (array : list Q) (offset : Z)
    (x1 y1 width height : Q) (color : Float4) : list Q :=
  let '(c0, c1, c2, c3) := color in
  let array := array_store array offset x1 in
  let array := array_store array (offset + 1) y1 in
  let array := array_store array (offset + 2) width in
  let array := array_store array (offset + 3) height in
  let array := array_store array (offset + 4) c0 in
  let array := array_store array (offset + 5) c1 in
  let array := array_store array (offset + 6) c2 in
  array_store array (offset + 7) c3.

Definition _colorToFloat32Array (color : IColor) : Float4 :=
  (channel color 24, channel color 16, channel color 8, channel color 0).

(** ** Cached colors and the viewport rectangle *)

Definition _updateCachedColors (env : Env) (this : RectangleRenderer)
  : RectangleRenderer :=
  {| _bgFloat := _colorToFloat32Array (background (_colorManager env));
     _selectionFloat := _colorToFloat32Array (selection (_colorManager env));
     _vertices := _vertices this;
     _selectionVertices := _selectionVertices this |}.

Definition _updateViewportRectangle (env : Env) (this : RectangleRenderer)
  : RectangleRenderer :=
  with_vertices this
    (with_attributes (_vertices this)
       (_addRectangleFloat (attributes (_vertices this)) 0 (num 0) (num 0)
          (num (cols (_terminal env) * scaledCellWidth (_dimensions env)))
          (num (rows (_terminal env) * scaledCellHeight (_dimensions env)))
          (_bgFloat this))).

Definition onResize (env : Env) (this : RectangleRenderer) : RectangleRenderer :=
  _updateViewportRectangle env this.

Definition onThemeChanged (env : Env) (this : RectangleRenderer)
  : RectangleRenderer :=
  _updateViewportRectangle env (_updateCachedColors env this).

(** The field initialisers and the part of the constructor that touches the
    fields above. *)
Definition new_RectangleRenderer (env : Env) : RectangleRenderer :=
  _updateCachedColors env
    {| _bgFloat := (num 0, num 0, num 0, num 0);
       _selectionFloat := (num 0, num 0, num 0, num 0);
       _vertices :=
         {| count := 0;
            attributes :=
              replicate (Z.to_nat INITIAL_BUFFER_RECTANGLE_CAPACITY) (num 0) |};
       _selectionVertices :=
         {| vertices := replicate (Z.to_nat (SELECTION_VERTEX_COUNT * 4)) (num 0);
            outlineIndices :=
              replicate (Z.to_nat SELECTION_OUTLINE_INDEX_COUNT) 0 |} |}.

(** ** Selection geometry *)

(** The locals [startCol], [endCol], [startRowEndCol] and [middleRowsCount]
    of [updateSelection]. *)
Definition local_startCol (model : ISelectionRenderModel) : Z :=
  if viewportStartRow model =? viewportCappedStartRow model
  then startCol model else 0.

Definition local_endCol (env : Env) (model : ISelectionRenderModel) : Z :=
  if viewportEndRow model =? viewportCappedEndRow model
  then endCol model else cols (_terminal env).

Definition startRowEndCol (env : Env) (model : ISelectionRenderModel) : Z :=
  if viewportCappedStartRow model =? viewportCappedEndRow model
  then endCol model else cols (_terminal env).

Definition middleRowsCount (model : ISelectionRenderModel) : Z :=
  Z.max (viewportCappedEndRow model - viewportCappedStartRow model - 1) 0.

Definition updateSelection (env : Env) (model : ISelectionRenderModel)
    (columnSelectMode : bool) (this : RectangleRenderer)
  : option RectangleRenderer :=
  let sv := _selectionVertices this in
  if negb (hasSelection model) then
    Some (with_selectionVertices this
            {| vertices := fill (vertices sv) (num 0) 0;
               outlineIndices := outlineIndices sv |})
  else
    let w := scaledCellWidth (_dimensions env) in
    let h := scaledCellHeight (_dimensions env) in
    let startRow := viewportCappedStartRow model in
    let endRow := viewportCappedEndRow model in
    let startCol := local_startCol model in
    let endCol := local_endCol env model in
    if columnSelectMode then
      let v0 := (startCol, startRow) in
      let v1 := (endCol, startRow) in
      let v2 := (startCol, endRow + 1) in
      let v3 := (endCol, endRow + 1) in
      vs ← typed_set (vertices sv)
        [ num (w * v0.1); num (h * v0.2); num 1; num 1;
          num (w * v1.1); num (h * v1.2); num (-1); num 1;
          num (w * v2.1); num (h * v2.2); num 1; num 1;
          num (w * v3.1); num (h * v3.2); num (-1); num 1 ];
      let vs := fill vs (num 0) (4 * 4) in
      oi ← typed_set (outlineIndices sv)
        [0; 1; 1; 3; 3; 2; 2; 0; 0; 0; 0; 0; 0; 0; 0; 0];
      Some (with_selectionVertices this
              {| vertices := vs; outlineIndices := oi |})
    else
      let startRowEndCol := startRowEndCol env model in
      let middleRowsCount := middleRowsCount model in
      let v0 := (startCol, startRow) in
      let v4 := (0, v0.2 + 1) in
      let v6 := (startRowEndCol, v4.2 + middleRowsCount) in
      let v9 := (endCol, endRow + 1) in
      vs ← typed_set (vertices sv)
        [ num (w * v0.1); num (h * v0.2); num 1; num 1;
          num (w * v6.1); num (h * v0.2); num (-1); num 1;
          num (w * v0.1); num (h * v4.2); num 1; num 1;
          num (w * v6.1); num (h * v4.2); num (-1); num 1;
          num (w * v4.1); num (h * v4.2); num 1; num 1;
          num (w * v4.1); num (h * v6.2); num 1; num 1;
          num (w * v6.1); num (h * v6.2); num (-1); num (-1);
          num (w * v9.1); num (h * v6.2); num (-1); num (-1);
          num (w * v4.1); num (h * v9.2); num 1; num (-1);
          num (w * v9.1); num (h * v9.2); num (-1); num (-1) ];
      oi ← typed_set (outlineIndices sv)
        (if endRow - startRow =? 0 then
           [0; 1; 1; 3; 3; 2; 2; 0; 0; 0; 0; 0; 0; 0; 0; 0]
         else if (endRow - startRow =? 1) && (startCol >? endCol) then
           [0; 1; 1; 3; 3; 2; 2; 0; 5; 7; 7; 9; 9; 8; 8; 5]
         else
           [0; 1; 1; 6; 6; 7; 7; 9; 9; 8; 8; 4; 4; 2; 2; 0]);
      Some (with_selectionVertices this
              {| vertices := vs; outlineIndices := oi |}).

(** ** Background rectangles *)

(** The first lines of [_updateRectangle]: the color of a background code,
    [None] when [color] stays [null] or the palette has no such entry. *)
Definition _updateRectangle_color (env : Env) (bg : option Z) : option IColor :=
  if bool_decide (bg = Some INVERTED_DEFAULT_COLOR) then
    Some (foreground (_colorManager env))
  else
    match bg with
    | Some c => if is256Color c then array_get (ansi (_colorManager env)) c
                else None
    | None => None
    end.

(** Reading [rgba] of a missing color throws. *)
Definition _updateRectangle (env : Env) (vertices : IVertices) (offset : Z)
    (bg : option Z) (startX endX y : Z) : option IVertices :=
  let color := _updateRectangle_color env bg in
  let vertices :=
    if Z.of_nat (length (attributes vertices)) <? offset + 4 then
      with_attributes vertices
        (expandFloat32Array (attributes vertices)
           (rows (_terminal env) * cols (_terminal env) * INDICES_PER_RECTANGLE))
    else vertices in
  let x1 := startX * scaledCellWidth (_dimensions env) in
  let y1 := y * scaledCellHeight (_dimensions env) in
  color ← color;
  let r := channel color 24 in
  let g := channel color 16 in
  let b := channel color 8 in
  Some (with_attributes vertices
          (_addRectangle (attributes vertices) offset (num x1) (num y1)
             (num ((endX - startX) * scaledCellWidth (_dimensions env)))
             (num (scaledCellHeight (_dimensions env))) r g b (num 1))).

(** [for (let i = start; i < start + n; i++) body], the body threading a
    state and possibly throwing. *)
Fixpoint for_loop {S} (n : nat) (i : Z) (body : Z → S → option S) (s : S)
  : option S :=
  match n with
  | O => Some s
  | S n' => s' ← body i s; for_loop n' (i + 1) body s'
  end.

(** The variables live in the column loop. *)
Record scan := {
  rectangleCount : Z;
  currentStartX : Z;
  currentBg : option Z;
  scan_vertices : IVertices
}.

(** The body of the loop over [x]. *)
Definition column_body (env : Env) (model : IRenderModel) (y x : Z) (s : scan)
  : option scan :=
  let modelIndex := ((y * cols (_terminal env)) + x) * 4 in
  let bg := array_get (cells model) (modelIndex + 2) in
  if negb (bool_decide (bg = currentBg s)) then
    if negb (bool_decide (currentBg s = Some DEFAULT_COLOR)) then
      let offset := rectangleCount s * INDICES_PER_RECTANGLE in
      v ← _updateRectangle env (scan_vertices s) offset (currentBg s)
            (currentStartX s) x y;
      Some {| rectangleCount := rectangleCount s + 1; currentStartX := x;
              currentBg := bg; scan_vertices := v |}
    else
      Some {| rectangleCount := rectangleCount s; currentStartX := x;
              currentBg := bg; scan_vertices := scan_vertices s |}
  else Some s.

(** The body of the loop over [y]; the state is [rectangleCount] and the
    vertices. *)
Definition row_body (env : Env) (model : IRenderModel) (y : Z)
    (s : Z * IVertices) : option (Z * IVertices) :=
  s' ← for_loop (Z.to_nat (cols (_terminal env))) 0 (column_body env model y)
         {| rectangleCount := s.1; currentStartX := -1;
            currentBg := Some DEFAULT_COLOR; scan_vertices := s.2 |};
  if negb (bool_decide (currentBg s' = Some DEFAULT_COLOR)) then
    let offset := rectangleCount s' * INDICES_PER_RECTANGLE in
    v ← _updateRectangle env (scan_vertices s') offset (currentBg s')
          (currentStartX s') (cols (_terminal env)) y;
    Some (rectangleCount s' + 1, v)
  else Some (rectangleCount s', scan_vertices s').

Definition updateBackgrounds (env : Env) (model : IRenderModel)
    (this : RectangleRenderer) : option RectangleRenderer :=
  s ← for_loop (Z.to_nat (rows (_terminal env))) 0 (row_body env model)
        (1, _vertices this);
  Some (with_vertices this (with_count s.2 s.1)).

(** ** Scenarios *)

(** A palette of 256 entries: entry [i] has red [i] and full alpha. *)
Definition palette256 : list IColor :=
  map (fun i => {| rgba := Z.of_nat i * 16777216 + 255 |}) (seq 0 256).

Definition colors0 : IColorSet :=
  {| foreground := {| rgba := 4294967295 |};
     background := {| rgba := 255 |};
     selection := {| rgba := 2155905279 |};
     ansi := palette256 |}.

Definition env_of (r c w h : Z) : Env :=
  {| _terminal := {| rows := r; cols := c |};
     _colorManager := colors0;
     _dimensions := {| scaledCellWidth := w; scaledCellHeight := h |} |}.

(** A model whose background codes are [bgs], row after row. *)
Definition model_of (bgs : list Z) : IRenderModel :=
  {| cells := flat_map (fun bg => [0; 0; bg; 0]) bgs |}.

(** [n] background codes, each another palette index than the one before. *)
Definition alternating (n : nat) : list Z :=
  map (fun i => if Nat.even i then 1 else 2) (seq 0 n).

(** Two rows of three cells of 10 by 20 pixels. *)
Definition env_2x3 : Env := env_of 2 3 10 20.

(** The last two cells of the first row in palette color 1, the first two
    of the second row in palette color 2. *)
Definition model_2x3 : IRenderModel :=
  model_of [DEFAULT_COLOR; 1; 1; 2; 2; DEFAULT_COLOR].

(** A renderer whose buffer still holds the rectangles of an earlier,
    longer list. *)
Definition renderer_used : RectangleRenderer :=
  with_vertices (new_RectangleRenderer env_2x3)
    {| count := 7; attributes := replicate 160 (num 5) |}.

(** A selection from column 5 of row 1 to column 2 of row 3. *)
Definition selection_three_rows : ISelectionRenderModel :=
  {| hasSelection := true;
     viewportStartRow := 1; viewportEndRow := 3;
     viewportCappedStartRow := 1; viewportCappedEndRow := 3;
     startCol := 5; endCol := 2 |}.

(** ** The runs of a grid

    [updateBackgrounds] is a scan that decides which rectangles to emit and
    a sequence of [_updateRectangle] calls that store them.  The scan is
    isolated here as a function that returns the emitted runs, and the
    loops are shown below to be the writes of those runs, in order. *)

(** The background code of cell [(x, y)], as the loop body reads it. *)
Definition bg_at (env : Env) (model : IRenderModel) (y x : Z) : option Z :=
  array_get (cells model) (((y * cols (_terminal env)) + x) * 4 + 2).

Record run := {
  run_bg : option Z;
  run_startX : Z;
  run_endX : Z;
  run_y : Z
}.

Definition flush (cbg : option Z) (csx x y : Z) : list run :=
  if bool_decide (cbg = Some DEFAULT_COLOR) then []
  else [ {| run_bg := cbg; run_startX := csx; run_endX := x; run_y := y |} ].

(** The runs closed by [n] steps of the column loop from column [x], with
    the open run it leaves. *)
Fixpoint column_runs (f : Z → option Z) (y : Z) (n : nat) (x csx : Z)
    (cbg : option Z) : list run * (Z * option Z) :=
  match n with
  | O => ([], (csx, cbg))
  | S n' =>
      if bool_decide (f x = cbg) then column_runs f y n' (x + 1) csx cbg
      else
        let r := column_runs f y n' (x + 1) x (f x) in
        (flush cbg csx x y ++ r.1, r.2)
  end.

Definition row_runs (f : Z → option Z) (y c : Z) : list run :=
  let r := column_runs f y (Z.to_nat c) 0 (-1) (Some DEFAULT_COLOR) in
  r.1 ++ flush r.2.2 r.2.1 c y.

Fixpoint rows_runs (env : Env) (model : IRenderModel) (n : nat) (y : Z)
  : list run :=
  match n with
  | O => []
  | S n' =>
      row_runs (bg_at env model y) y (cols (_terminal env))
      ++ rows_runs env model n' (y + 1)
  end.

Definition grid_runs (env : Env) (model : IRenderModel) : list run :=
  rows_runs env model (Z.to_nat (rows (_terminal env))) 0.

Definition write_run (env : Env) (v : IVertices) (k : Z) (r : run)
  : option IVertices :=
  _updateRectangle env v (k * INDICES_PER_RECTANGLE)
    (run_bg r) (run_startX r) (run_endX r) (run_y r).

Fixpoint write_runs (env : Env) (rs : list run) (k : Z) (v : IVertices)
  : option (Z * IVertices) :=
  match rs with
  | [] => Some (k, v)
  | r :: rs' => v' ← write_run env v k r; write_runs env rs' (k + 1) v'
  end.

(** ** Runs, as the specification counts them

    A run is a maximal horizontal sequence of cells of one row sharing one
    non-default color.  Cell [x] is the first cell of a run when its color
    is not the default one and it is the first cell of the row or its left
    neighbour has another color. *)
Definition starts_run (f : Z → option Z) (x : Z) : bool :=
  negb (bool_decide (f x = Some DEFAULT_COLOR))
  && ((x =? 0) || negb (bool_decide (f (x - 1) = f x))).

Definition row_run_count (f : Z → option Z) (c : Z) : nat :=
  length (filter (λ x, starts_run f x) (seqZ 0 c)).

Definition grid_run_count (env : Env) (model : IRenderModel) : nat :=
  sum_list ((λ y, row_run_count (bg_at env model y) (cols (_terminal env)))
            <$> seqZ 0 (rows (_terminal env))).

(** ** Well-formed inputs *)

(** A color code of the data model: default, inverted default, or an index
    of the palette. *)
Definition valid_code (c : Z) : bool :=
  (c =? DEFAULT_COLOR) || (c =? INVERTED_DEFAULT_COLOR) || is256Color c.

(** Every cell of the [rows × cols] grid holds a color code. *)
Definition grid_ok (env : Env) (model : IRenderModel) : Prop :=
  ∀ y x, 0 ≤ y < rows (_terminal env) → 0 ≤ x < cols (_terminal env) →
    ∃ c, bg_at env model y x = Some c ∧ valid_code c = true.

Definition grid_okb (env : Env) (model : IRenderModel) : bool :=
  forallb (λ y,
    forallb (λ x, match bg_at env model y x with
                  | Some c => valid_code c
                  | None => false
                  end) (seqZ 0 (cols (_terminal env))))
    (seqZ 0 (rows (_terminal env))).

(** The palette is fully populated. *)
Definition palette_ok (env : Env) : Prop :=
  (256 ≤ length (ansi (_colorManager env)))%nat.

(** ** Invariants of the scan *)

Definition open_run (cbg : option Z) : nat :=
  if bool_decide (cbg = Some DEFAULT_COLOR) then 0%nat else 1%nat.

(** The color on the left of column [x]: what [currentBg] holds when the
    column loop reaches [x]. *)
Definition left_of (f : Z → option Z) (x : Z) : option Z :=
  if x =? 0 then Some DEFAULT_COLOR else f (x - 1).

(** A run of row [y] lies within the columns [0, hi), is not empty, and
    covers cells of its one, non-default, color. *)
Definition run_ok (f : Z → option Z) (y hi : Z) (r : run) : Prop :=
  run_y r = y ∧ 0 ≤ run_startX r < run_endX r ∧ run_endX r ≤ hi ∧
  run_bg r ≠ Some DEFAULT_COLOR ∧
  ∀ i, run_startX r ≤ i < run_endX r → f i = run_bg r.

(** The run that is open when the column loop reaches [x]. *)
Definition open_ok (f : Z → option Z) (x csx : Z) (cbg : option Z) : Prop :=
  cbg ≠ Some DEFAULT_COLOR →
  0 ≤ csx < x ∧ ∀ i, csx ≤ i < x → f i = cbg.

(** ** The effect of one [_updateRectangle] *)

(** The buffer after the capacity check of [_updateRectangle]. *)
Definition grown (env : Env) (a : list Q) (offset : Z) : list Q :=
  if Z.of_nat (length a) <? offset + 4 then
    expandFloat32Array a
      (rows (_terminal env) * cols (_terminal env) * INDICES_PER_RECTANGLE)
  else a.

(** The eight numbers stored for a run of color [c]. *)
Definition rectangle (env : Env) (c : IColor) (r : run) : list Q :=
  [ num (run_startX r * scaledCellWidth (_dimensions env));
    num (run_y r * scaledCellHeight (_dimensions env));
    num ((run_endX r - run_startX r) * scaledCellWidth (_dimensions env));
    num (scaledCellHeight (_dimensions env));
    channel c 24; channel c 16; channel c 8; num 1 ].

(** The numbers stored for a run, and for a list of runs one after the
    other. *)
Definition run_rectangle (env : Env) (r : run) : list Q :=
  match _updateRectangle_color env (run_bg r) with
  | Some c => rectangle env c r
  | None => []
  end.

Definition rectangles (env : Env) (rs : list run) : list Q :=
  concat (run_rectangle env <$> rs).

(** The length of the attribute buffer is a whole number of rectangles:
    true of the initial buffer and kept by every method. *)
Definition whole_rectangles (a : list Q) : Prop :=
  ∃ q : nat, length a = (8 * q)%nat.

(** The size requested from [expandFloat32Array]. *)
Definition grid_floats (env : Env) : Z :=
  rows (_terminal env) * cols (_terminal env) * INDICES_PER_RECTANGLE.

(** The viewport rectangle: the whole grid, at the origin, in one color. *)
Definition viewport_rectangle (env : Env) (color : Float4) : list Q :=
  [ num 0; num 0;
    num (cols (_terminal env) * scaledCellWidth (_dimensions env));
    num (rows (_terminal env) * scaledCellHeight (_dimensions env));
    color.1.1.1; color.1.1.2; color.1.2; color.2 ].

(** ** Selection outlines *)

Definition outline_single_row : list Z :=
  [0; 1; 1; 3; 3; 2; 2; 0; 0; 0; 0; 0; 0; 0; 0; 0].

Definition outline_two_rectangles : list Z :=
  [0; 1; 1; 3; 3; 2; 2; 0; 5; 7; 7; 9; 9; 8; 8; 5].

Definition outline_staircase : list Z :=
  [0; 1; 1; 6; 6; 7; 7; 9; 9; 8; 8; 4; 4; 2; 2; 0].

(** The outline is drawn as line segments, one per pair of indices. *)
Fixpoint segments (l : list Z) : list (Z * Z) :=
  match l with
  | a :: b :: l' => (a, b) :: segments l'
  | _ => []
  end.

(** A padding pair repeats an index; the other segments are active. *)
Definition active_segments (l : list Z) : list (Z * Z) :=
  filter (λ s, s.1 ≠ s.2) (segments l).

(** The two selection arrays keep the sizes they are allocated with. *)
Definition selection_wf (this : RectangleRenderer) : Prop :=
  length (vertices (_selectionVertices this)) = 40%nat
  ∧ length (outlineIndices (_selectionVertices this)) = 16%nat.

(** A selection that starts on the last row of a 24-row viewport and ends
    seven rows below it. *)
Definition selection_below_viewport : ISelectionRenderModel :=
  {| hasSelection := true;
     viewportStartRow := 23; viewportEndRow := 30;
     viewportCappedStartRow := 23; viewportCappedEndRow := 23;
     startCol := 5; endCol := 2 |}.

Definition selection_single_row : ISelectionRenderModel :=
  {| hasSelection := true;
     viewportStartRow := 2; viewportEndRow := 2;
     viewportCappedStartRow := 2; viewportCappedEndRow := 2;
     startCol := 1; endCol := 4 |}.

Definition selection_none : ISelectionRenderModel :=
  {| hasSelection := false;
     viewportStartRow := 0; viewportEndRow := 0;
     viewportCappedStartRow := 0; viewportCappedEndRow := 0;
     startCol := 0; endCol := 0 |}.

(** The renderer after a single-row selection is drawn. *)
Definition renderer_with_selection : RectangleRenderer :=
  default (new_RectangleRenderer (env_of 24 80 10 20))
    (updateSelection (env_of 24 80 10 20) selection_single_row false
       (new_RectangleRenderer (env_of 24 80 10 20))).

(** ** Rectangles and pixels *)

(** The eight floats of slot [k] of the buffer, when they are all there. *)
Definition slot (a : list Q) (k : Z) : option (list Q) :=
  if k <? 0 then None
  else
    let s := take 8 (drop (Z.to_nat (k * 8)) a) in
    if (length s =? 8)%nat then Some s else None.

(** Pixel [(px, py)] lies in the extent [x, x + width) × [y, y + height) of
    a stored rectangle. *)
Definition in_rectangle (s : list Q) (px py : Z) : bool :=
  match s with
  | x :: y :: w :: h :: _ =>
      Qle_bool x (num px) && negb (Qle_bool (x + w) (num px))
      && Qle_bool y (num py) && negb (Qle_bool (y + h) (num py))
  | _ => false
  end.

(** Pixel [(px, py)] lies in the extent of cell [(cx, cy)]. *)
Definition in_cell (env : Env) (cx cy px py : Z) : bool :=
  (cx * scaledCellWidth (_dimensions env) <=? px)
  && (px <? (cx + 1) * scaledCellWidth (_dimensions env))
  && (cy * scaledCellHeight (_dimensions env) <=? py)
  && (py <? (cy + 1) * scaledCellHeight (_dimensions env)).

(** Some background rectangle of the buffer (slots 1 to [count - 1])
    covers the pixel. *)
Definition covered (v : IVertices) (px py : Z) : bool :=
  existsb (λ k, match slot (attributes v) k with
                | Some s => in_rectangle s px py
                | None => false
                end) (seqZ 1 (count v - 1)).

(** ** Order and coverage of the runs *)

(** The runs of a row from the state of the column loop at column [x]:
    those the next [n] steps close, then the open one, flushed at [hi]. *)
Definition scan_out (f : Z → option Z) (y : Z) (n : nat) (x csx : Z)
    (cbg : option Z) (hi : Z) : list run :=
  (column_runs f y n x csx cbg).1
  ++ flush (column_runs f y n x csx cbg).2.2
       (column_runs f y n x csx cbg).2.1 hi y.

(** [r1] ends where [r2] starts, or before. *)
Definition run_left (r1 r2 : run) : Prop := run_endX r1 ≤ run_startX r2.

(** [r1] comes before [r2] in row-major order, without overlap. *)
Definition run_before (r1 r2 : run) : Prop :=
  run_y r1 < run_y r2 ∨ (run_y r1 = run_y r2 ∧ run_endX r1 ≤ run_startX r2).

(** Cell [x] lies in run [r]. *)
Definition in_run (r : run) (x : Z) : Prop := run_startX r ≤ x < run_endX r.

(** The start of the open run, or the current column when none is open. *)
Definition scan_low (x csx : Z) (cbg : option Z) : Z :=
  if bool_decide (cbg = Some DEFAULT_COLOR) then x else csx.

(** The buffer has room for every run of the grid: it has it already, or
    the grid has fewer runs than cells. *)
Definition has_room (env : Env) (model : IRenderModel) (a : list Q) : Prop :=
  (1 + Z.of_nat (grid_run_count env model)) * 8
  ≤ Z.max (Z.of_nat (length a)) (grid_floats env).

(** ** One more write below the runs *)

(** [v.attributes[i] = x] *)
Definition store_low (i : Z) (x : Q) (v : IVertices) : IVertices :=
  with_attributes v (array_store (attributes v) i x).

(** A run cannot be extended: the cell before it and the cell after it, in
    the row of [c] cells, have another color. *)
Definition run_maximal (f : Z → option Z) (c : Z) (r : run) : Prop :=
  (run_startX r = 0 ∨ f (run_startX r - 1) ≠ run_bg r)
  ∧ (run_endX r = c ∨ f (run_endX r) ≠ run_bg r).

(** Rectangle [s1] lies in a row above [s2], or in the same row and to its
    left without overlap. *)
Definition rectangle_before (s1 s2 : list Q) : Prop :=
  match s1, s2 with
  | x1 :: y1 :: w1 :: _, x2 :: y2 :: _ =>
      (y1 < y2)%Q ∨ (y1 == y2 ∧ x1 + w1 <= x2)%Q
  | _, _ => False
  end.

(** ** Sequences of calls *)

(** One call of a method that returns. *)
Inductive call : RectangleRenderer → RectangleRenderer → Prop :=
  | call_onResize env this :
      call this (onResize env this)
  | call_onThemeChanged env this :
      call this (onThemeChanged env this)
  | call_updateSelection env model columnSelectMode this this' :
      updateSelection env model columnSelectMode this = Some this' →
      call this this'
  | call_updateBackgrounds env model this this' :
      updateBackgrounds env model this = Some this' →
      call this this'.

(** The renderers that the constructor and calls that return lead to, the
    collaborators being free to change between the calls. *)
Inductive reachable : RectangleRenderer → Prop :=
  | reachable_new env : reachable (new_RectangleRenderer env)
  | reachable_call this this' :
      reachable this → call this this' → reachable this'.

(** What every reachable renderer satisfies. *)
Definition renderer_wf (this : RectangleRenderer) : Prop :=
  whole_rectangles (attributes (_vertices this))
  ∧ (Z.to_nat INITIAL_BUFFER_RECTANGLE_CAPACITY
     ≤ length (attributes (_vertices this)))%nat
  ∧ length (vertices (_selectionVertices this))
    = Z.to_nat (SELECTION_VERTEX_COUNT * ATTRIBUTES_PER_SELECTION_VERTEX)
  ∧ length (outlineIndices (_selectionVertices this))
    = Z.to_nat SELECTION_OUTLINE_INDEX_COUNT
  ∧ 0 ≤ count (_vertices this).

(** ** The selection as drawn *)

(** The element array of the selection fill, from the constructor: six
    triangles over the ten vertices. *)
Definition selectionIndexBuffer : list Z :=
  [ 0; 1; 2;
    2; 1; 3;
    4; 3; 5;
    5; 3; 6;
    5; 7; 8;
    8; 7; 9 ].

(** Two triangles [a b c] and [c b d] that share the edge [b c] make the
    quad of corners [a], [b], [c], [d]. *)
Fixpoint quads (l : list Z) : list (Z * Z * Z * Z) :=
  match l with
  | a :: b :: c :: c' :: b' :: d :: l' =>
      if (c =? c') && (b =? b') then (a, b, c, d) :: quads l' else []
  | _ => []
  end.

(** The position of vertex [i]: the first two of its four floats. *)
Definition vertex_xy (vs : list Q) (i : Z) : option (Q * Q) :=
  x ← array_get vs (i * ATTRIBUTES_PER_SELECTION_VERTEX);
  y ← array_get vs (i * ATTRIBUTES_PER_SELECTION_VERTEX + 1);
  Some (x, y).

(** The corners [a], [b], [c], [d] of a quad are the top left, top right,
    bottom left and bottom right corners of the rectangle from
    [(left, top)] to [(right, bottom)]. *)
Definition is_rectangle (vs : list Q) (q : Z * Z * Z * Z)
    (left top right bottom : Q) : Prop :=
  vertex_xy vs q.1.1.1 = Some (left, top)
  ∧ vertex_xy vs q.1.1.2 = Some (right, top)
  ∧ vertex_xy vs q.1.2 = Some (left, bottom)
  ∧ vertex_xy vs q.2 = Some (right, bottom).

(** A segment of the outline is horizontal or vertical. *)
Definition axis_aligned (vs : list Q) (s : Z * Z) : Prop :=
  ∃ x1 y1 x2 y2,
    vertex_xy vs s.1 = Some (x1, y1) ∧ vertex_xy vs s.2 = Some (x2, y2)
    ∧ (x1 = x2 ∨ y1 = y2).

(** The segments follow one another and come back to where they started;
    a new loop may start where one has closed. *)
Fixpoint chained (start cur : Z) (l : list (Z * Z)) : bool :=
  match l with
  | [] => cur =? start
  | (a, b) :: l' =>
      if cur =? start then chained a b l'
      else (a =? cur) && chained start b l'
  end.

Definition closed_loops (l : list Z) : bool :=
  match segments l with
  | [] => true
  | (a, b) :: l' => chained a b l'
  end.

(** The forty floats that range-select mode writes, with the positions of
    the vertices written out. *)
Definition range_vertices (env : Env) (model : ISelectionRenderModel) : list Q :=
  let w := scaledCellWidth (_dimensions env) in
  let h := scaledCellHeight (_dimensions env) in
  let sr := viewportCappedStartRow model in
  let er := viewportCappedEndRow model in
  let sc := local_startCol model in
  let ec := local_endCol env model in
  let rc := startRowEndCol env model in
  let m := middleRowsCount model in
  [ num (w * sc); num (h * sr); num 1; num 1;
    num (w * rc); num (h * sr); num (-1); num 1;
    num (w * sc); num (h * (sr + 1)); num 1; num 1;
    num (w * rc); num (h * (sr + 1)); num (-1); num 1;
    num (w * 0); num (h * (sr + 1)); num 1; num 1;
    num (w * 0); num (h * (sr + 1 + m)); num 1; num 1;
    num (w * rc); num (h * (sr + 1 + m)); num (-1); num (-1);
    num (w * ec); num (h * (sr + 1 + m)); num (-1); num (-1);
    num (w * 0); num (h * (er + 1)); num 1; num (-1);
    num (w * ec); num (h * (er + 1)); num (-1); num (-1) ].

(** The outline that range-select mode writes. *)
Definition range_outline (env : Env) (model : ISelectionRenderModel) : list Z :=
  if viewportCappedEndRow model - viewportCappedStartRow model =? 0
  then outline_single_row
  else if (viewportCappedEndRow model - viewportCappedStartRow model =? 1)
          && (local_startCol model >? local_endCol env model)
  then outline_two_rectangles else outline_staircase.

(** The forty floats that column-select mode leaves. *)
Definition column_vertices (env : Env) (model : ISelectionRenderModel) : list Q :=
  let w := scaledCellWidth (_dimensions env) in
  let h := scaledCellHeight (_dimensions env) in
  let sr := viewportCappedStartRow model in
  let er := viewportCappedEndRow model in
  let sc := local_startCol model in
  let ec := local_endCol env model in
  [ num (w * sc); num (h * sr); num 1; num 1;
    num (w * ec); num (h * sr); num (-1); num 1;
    num (w * sc); num (h * (er + 1)); num 1; num 1;
    num (w * ec); num (h * (er + 1)); num (-1); num 1 ]
  ++ replicate 24 (num 0).

(** * Properties *)

(** ** The loops write the runs *)

Lemma write_runs_app env rs1 rs2 k v :
  write_runs env (rs1 ++ rs2) k v =
  (p ← write_runs env rs1 k v; write_runs env rs2 p.1 p.2).
Proof.
  revert k v. induction rs1 as [|r rs1 IH]; intros k v; simpl; [done|].
  destruct (write_run env v k r) as [v'|]; simpl; [apply IH | done].
Qed.

Lemma write_runs_flush env cbg csx x y k v :
  write_runs env (flush cbg csx x y) k v =
  if bool_decide (cbg = Some DEFAULT_COLOR) then Some (k, v)
  else v' ← _updateRectangle env v (k * INDICES_PER_RECTANGLE) cbg csx x y;
       Some (k + 1, v').
Proof.
  unfold flush. case_bool_decide; simpl; [done|].
  unfold write_run; simpl. by destruct (_updateRectangle _ _ _ _ _ _ _).
Qed.

(** One step of the column loop: nothing on a cell of the current color,
    else the open run is flushed and a new one starts at [x]. *)
Lemma column_body_cases env model y x s :
  column_body env model y x s =
  if bool_decide (bg_at env model y x = currentBg s) then Some s
  else
    p ← write_runs env (flush (currentBg s) (currentStartX s) x y)
          (rectangleCount s) (scan_vertices s);
    Some {| rectangleCount := p.1; currentStartX := x;
            currentBg := bg_at env model y x; scan_vertices := p.2 |}.
Proof.
  unfold column_body. cbv zeta. fold (bg_at env model y x).
  destruct (bool_decide (bg_at env model y x = currentBg s)); cbn [negb]; [done|].
  rewrite write_runs_flush.
  destruct (bool_decide (currentBg s = Some DEFAULT_COLOR)); cbn [negb]; [done|].
  by destruct (_updateRectangle _ _ _ _ _ _ _).
Qed.

(** [n] steps of the column loop write the runs they close. *)
Lemma column_loop_runs env model y n : ∀ x s,
  for_loop n x (column_body env model y) s =
  (p ← write_runs env
         (column_runs (bg_at env model y) y n x (currentStartX s) (currentBg s)).1
         (rectangleCount s) (scan_vertices s);
   Some {| rectangleCount := p.1;
           currentStartX :=
             (column_runs (bg_at env model y) y n x (currentStartX s) (currentBg s)).2.1;
           currentBg :=
             (column_runs (bg_at env model y) y n x (currentStartX s) (currentBg s)).2.2;
           scan_vertices := p.2 |}).
Proof.
  induction n as [|n IH]; intros x s.
  - by destruct s.
  - cbn [for_loop column_runs]. rewrite column_body_cases.
    destruct (bool_decide (bg_at env model y x = currentBg s)).
    + cbn [mbind option_bind]. apply IH.
    + cbn [fst snd]. rewrite write_runs_app.
      destruct (write_runs env (flush _ _ _ _) _ _) as [[k' v']|]; [|done].
      cbn [mbind option_bind fst snd]. by rewrite IH.
Qed.

(** The body of the row loop writes the runs of the row. *)
Lemma row_body_runs env model y k v :
  row_body env model y (k, v) =
  write_runs env (row_runs (bg_at env model y) y (cols (_terminal env))) k v.
Proof.
  unfold row_body, row_runs. rewrite column_loop_runs. cbn [fst snd].
  cbn [currentStartX currentBg rectangleCount scan_vertices].
  rewrite write_runs_app.
  destruct (write_runs env _ k v) as [[k' v']|]; [|done].
  cbn [mbind option_bind fst snd currentBg rectangleCount scan_vertices currentStartX].
  rewrite write_runs_flush.
  destruct (bool_decide _); cbn [negb]; [done|].
  by destruct (_updateRectangle _ _ _ _ _ _ _).
Qed.

Lemma row_loop_runs env model n : ∀ y k v,
  for_loop n y (row_body env model) (k, v) =
  write_runs env (rows_runs env model n y) k v.
Proof.
  induction n as [|n IH]; intros y k v; [done|].
  cbn [for_loop rows_runs]. rewrite row_body_runs, write_runs_app.
  destruct (write_runs env _ k v) as [[k' v']|]; [|done].
  cbn [mbind option_bind fst snd]. apply IH.
Qed.

(** [updateBackgrounds] writes the runs of the grid from slot 1 on and sets
    the count. *)
Lemma updateBackgrounds_runs env model this :
  updateBackgrounds env model this =
  (p ← write_runs env (grid_runs env model) 1 (_vertices this);
   Some (with_vertices this (with_count p.2 p.1))).
Proof. unfold updateBackgrounds, grid_runs. by rewrite row_loop_runs. Qed.

(** ** The runs of a row *)

Lemma length_flush cbg csx x y : length (flush cbg csx x y) = open_run cbg.
Proof. unfold flush, open_run. by case_bool_decide. Qed.

Lemma length_filter_cons (p : Z → bool) x l :
  length (filter (λ x, p x) (x :: l)) =
  ((if p x then 1 else 0) + length (filter (λ x, p x) l))%nat.
Proof.
  rewrite filter_cons. by destruct (p x).
Qed.

Section RowScan.

Variable f : Z → option Z.
Variable y : Z.

(** *** Their number *)

Lemma starts_run_left x :
  starts_run f x =
  negb (bool_decide (f x = Some DEFAULT_COLOR))
  && negb (bool_decide (f x = left_of f x)).
Proof.
  unfold starts_run, left_of. destruct (x =? 0); simpl.
  - repeat case_bool_decide; simpl; congruence.
  - repeat case_bool_decide; simpl; congruence.
Qed.

(** The runs closed from column [x] on, and the one left open, are as many
    as the run that was open plus the runs that start from [x] on. *)
Lemma column_runs_count n : ∀ x csx cbg,
  0 ≤ x → cbg = left_of f x →
  (length (column_runs f y n x csx cbg).1
   + open_run (column_runs f y n x csx cbg).2.2
   = open_run cbg
     + length (filter (λ x, starts_run f x) (seqZ x (Z.of_nat n))))%nat.
Proof.
  induction n as [|n IH]; intros x csx cbg Hx Hcbg.
  - simpl. lia.
  - rewrite seqZ_cons by lia.
    replace (Z.pred (Z.of_nat (S n))) with (Z.of_nat n) by lia.
    assert (Hl : f x = left_of f (Z.succ x)).
    { unfold left_of. destruct (Z.eqb_spec (Z.succ x) 0); [lia|]. f_equal. lia. }
    cbn [column_runs]. rewrite length_filter_cons, starts_run_left, <- Hcbg.
    change (x + 1) with (Z.succ x).
    case_bool_decide as E.
    + rewrite IH by (lia || congruence).
      rewrite andb_false_r. lia.
    + cbn [fst snd]. rewrite length_app, length_flush.
      specialize (IH (Z.succ x) x (f x) ltac:(lia) Hl).
      unfold open_run at 2 in IH.
      destruct (bool_decide (f x = Some DEFAULT_COLOR)); simpl; lia.
Qed.

Lemma row_runs_count c :
  length (row_runs f y c) = row_run_count f c.
Proof.
  unfold row_runs, row_run_count. rewrite length_app, length_flush.
  rewrite (column_runs_count (Z.to_nat c) 0 (-1) (Some DEFAULT_COLOR))
    by (lia || done).
  unfold open_run at 1. rewrite bool_decide_eq_true_2 by done. simpl.
  destruct (Z.le_gt_cases 0 c).
  - by rewrite Z2Nat.id.
  - by rewrite !seqZ_nil by lia.
Qed.

(** *** What they are *)

Lemma flush_ok x csx cbg hi :
  open_ok f x csx cbg → x ≤ hi → Forall (run_ok f y hi) (flush cbg csx x y).
Proof.
  intros Hopen Hhi. unfold flush. case_bool_decide as E; [constructor|].
  destruct (Hopen E) as [? ?]. repeat constructor; simpl; auto; lia.
Qed.

Lemma column_runs_ok n : ∀ x csx cbg,
  0 ≤ x → open_ok f x csx cbg →
  Forall (run_ok f y (x + Z.of_nat n)) (column_runs f y n x csx cbg).1
  ∧ open_ok f (x + Z.of_nat n) (column_runs f y n x csx cbg).2.1
      (column_runs f y n x csx cbg).2.2.
Proof.
  induction n as [|n IH]; intros x csx cbg Hx Hopen.
  - simpl. rewrite Z.add_0_r. by split.
  - cbn [column_runs].
    replace (x + Z.of_nat (S n)) with (x + 1 + Z.of_nat n) by lia.
    case_bool_decide as E.
    + apply IH; [lia|]. intros Hd. destruct (Hopen Hd) as [? Hc].
      split; [lia|]. intros i Hi.
      destruct (decide (i = x)) as [->|]; [done|]. apply Hc. lia.
    + cbn [fst snd]. destruct (IH (x + 1) x (f x)) as [IH1 IH2]; [lia| |].
      { intros _. split; [lia|]. intros i Hi. f_equal. lia. }
      split; [|done]. apply Forall_app. split; [|done].
      apply flush_ok; [done|lia].
Qed.

Lemma row_runs_ok c : Forall (run_ok f y c) (row_runs f y c).
Proof.
  unfold row_runs.
  destruct (column_runs_ok (Z.to_nat c) 0 (-1) (Some DEFAULT_COLOR))
    as [H1 H2]; [lia|by intros []|].
  destruct (Z.le_gt_cases 0 c) as [Hc|Hc].
  - rewrite Z.add_0_l, Z2Nat.id in H1, H2 by done.
    apply Forall_app. split; [done|]. by apply flush_ok.
  - replace (Z.to_nat c) with O by lia. simpl. unfold flush.
    by rewrite bool_decide_eq_true_2.
Qed.

(** *** They are in order and cover the colored cells *)

Lemma scan_out_O x csx cbg hi :
  scan_out f y O x csx cbg hi = flush cbg csx hi y.
Proof. done. Qed.

Lemma scan_out_S n x csx cbg hi :
  scan_out f y (S n) x csx cbg hi =
  if bool_decide (f x = cbg) then scan_out f y n (x + 1) csx cbg hi
  else flush cbg csx x y ++ scan_out f y n (x + 1) x (f x) hi.
Proof.
  unfold scan_out. cbn [column_runs]. case_bool_decide; [done|].
  cbn [fst snd]. by rewrite app_assoc.
Qed.

Lemma row_runs_scan_out c :
  row_runs f y c = scan_out f y (Z.to_nat c) 0 (-1) (Some DEFAULT_COLOR) c.
Proof. done. Qed.

Lemma scan_out_sorted n : ∀ x csx cbg hi,
  (cbg ≠ Some DEFAULT_COLOR → csx < x) → x + Z.of_nat n ≤ hi →
  StronglySorted run_left (scan_out f y n x csx cbg hi)
  ∧ Forall (λ r, scan_low x csx cbg ≤ run_startX r) (scan_out f y n x csx cbg hi).
Proof.
  induction n as [|n IH]; intros x csx cbg hi Hopen Hhi.
  - rewrite scan_out_O. unfold flush, scan_low.
    case_bool_decide; [by split; constructor|].
    split; repeat constructor. simpl. lia.
  - rewrite scan_out_S. case_bool_decide as E.
    + destruct (IH (x + 1) csx cbg hi) as [S1 F1]; [intros ?%Hopen; lia|lia|].
      split; [done|]. eapply Forall_impl; [exact F1|].
      intros r. unfold scan_low. case_bool_decide; [lia|]. specialize (Hopen H). lia.
    + destruct (IH (x + 1) x (f x) hi) as [S1 F1]; [lia|lia|].
      assert (F2 : Forall (λ r, x ≤ run_startX r) (scan_out f y n (x + 1) x (f x) hi)).
      { eapply Forall_impl; [exact F1|]. intros r. unfold scan_low.
        case_bool_decide; lia. }
      unfold flush, scan_low. case_bool_decide as D; [done|].
      specialize (Hopen D). split.
      * apply StronglySorted_cons. split; [|done].
        eapply Forall_impl; [exact F2|]. intros r. unfold run_left. simpl. lia.
      * constructor; [simpl; lia|].
        eapply Forall_impl; [exact F2|]. intros r. simpl. lia.
Qed.

Lemma scan_out_complete n : ∀ x csx cbg i,
  (cbg ≠ Some DEFAULT_COLOR → csx < x) →
  (cbg ≠ Some DEFAULT_COLOR ∧ csx ≤ i < x)
  ∨ (x ≤ i < x + Z.of_nat n ∧ f i ≠ Some DEFAULT_COLOR) →
  ∃ r, r ∈ scan_out f y n x csx cbg (x + Z.of_nat n) ∧ in_run r i.
Proof.
  induction n as [|n IH]; intros x csx cbg i Hopen Hi.
  - rewrite scan_out_O, Z.add_0_r. destruct Hi as [[D Hi]|[Hi _]]; [|lia].
    unfold flush. rewrite bool_decide_eq_false_2 by done.
    eexists. split; [by left|]. unfold in_run. simpl. lia.
  - rewrite scan_out_S.
    replace (x + Z.of_nat (S n)) with (x + 1 + Z.of_nat n) in * by lia.
    case_bool_decide as E.
    + apply IH; [intros ?%Hopen; lia|].
      destruct Hi as [[D Hi]|[Hi Hf]]; [left; split; [done|lia]|].
      destruct (decide (i = x)) as [->|]; [|right; split; [lia|done]].
      left. rewrite E in Hf. specialize (Hopen Hf). split; [done|lia].
    + destruct Hi as [[D Hi]|[Hi Hf]].
      * unfold flush. rewrite bool_decide_eq_false_2 by done.
        eexists. split; [by left|]. unfold in_run. simpl. lia.
      * destruct (IH (x + 1) x (f x) i) as (r & Hr & Hin); [lia| |].
        { destruct (decide (i = x)) as [->|]; [left; split; [done|lia]|].
          right. split; [lia|done]. }
        exists r. split; [|done]. apply elem_of_app. by right.
Qed.

Lemma row_runs_sorted c : StronglySorted run_left (row_runs f y c).
Proof.
  rewrite row_runs_scan_out.
  destruct (Z.le_gt_cases 0 c).
  - apply scan_out_sorted; [done|lia].
  - replace (Z.to_nat c) with O by lia. rewrite scan_out_O. constructor.
Qed.

Lemma row_runs_complete c i :
  0 ≤ i < c → f i ≠ Some DEFAULT_COLOR →
  ∃ r, r ∈ row_runs f y c ∧ in_run r i.
Proof.
  intros Hi Hf. rewrite row_runs_scan_out.
  destruct (scan_out_complete (Z.to_nat c) 0 (-1) (Some DEFAULT_COLOR) i)
    as (r & Hr & Hin); [done|right; split; [lia|done]|].
  exists r. split; [|done]. by rewrite Z.add_0_l, Z2Nat.id in Hr by lia.
Qed.

End RowScan.

(** ** The runs of the grid *)

Lemma rows_runs_count env model n : ∀ y,
  length (rows_runs env model n y) =
  sum_list ((λ y, row_run_count (bg_at env model y) (cols (_terminal env)))
            <$> seqZ y (Z.of_nat n)).
Proof.
  induction n as [|n IH]; intros y; [done|].
  rewrite seqZ_cons by lia.
  replace (Z.pred (Z.of_nat (S n))) with (Z.of_nat n) by lia.
  cbn [rows_runs]. rewrite length_app, row_runs_count, IH. done.
Qed.

Lemma grid_runs_count env model :
  length (grid_runs env model) = grid_run_count env model.
Proof.
  unfold grid_runs, grid_run_count. rewrite rows_runs_count.
  destruct (Z.le_gt_cases 0 (rows (_terminal env))).
  - by rewrite Z2Nat.id.
  - by rewrite !seqZ_nil by lia.
Qed.

Lemma rows_runs_ok env model n : ∀ y0 r,
  r ∈ rows_runs env model n y0 →
  ∃ y, y0 ≤ y < y0 + Z.of_nat n
       ∧ run_ok (bg_at env model y) y (cols (_terminal env)) r.
Proof.
  induction n as [|n IH]; intros y0 r Hr; [by apply elem_of_nil in Hr|].
  cbn [rows_runs] in Hr. apply elem_of_app in Hr as [Hr|Hr].
  - exists y0. split; [lia|].
    by eapply (proj1 (Forall_forall _ _) (row_runs_ok _ _ _)).
  - destruct (IH _ _ Hr) as (y & ? & ?). exists y. split; [lia|done].
Qed.

Lemma grid_runs_ok env model r :
  r ∈ grid_runs env model →
  ∃ y, 0 ≤ y < rows (_terminal env)
       ∧ run_ok (bg_at env model y) y (cols (_terminal env)) r.
Proof.
  intros Hr. apply rows_runs_ok in Hr as (y & ? & ?). exists y.
  split; [lia|done].
Qed.

Lemma rows_runs_sorted env model n : ∀ y0,
  StronglySorted run_before (rows_runs env model n y0).
Proof.
  induction n as [|n IH]; intros y0; [constructor|].
  cbn [rows_runs]. apply StronglySorted_app. split; [|split].
  - intros r1 r2 H1 H2.
    pose proof (proj1 (Forall_forall _ _) (row_runs_ok _ _ _) _ H1) as (Hy1 & _).
    apply rows_runs_ok in H2 as (y2 & Hy2 & (Hy2' & _)).
    left. lia.
  - pose proof (row_runs_ok (bg_at env model y0) y0 (cols (_terminal env))) as Hok.
    pose proof (row_runs_sorted (bg_at env model y0) y0 (cols (_terminal env))) as Hs.
    induction Hs as [|r l Hs IHs Hr]; [constructor|].
    apply Forall_cons in Hok as [Hr0 Hok].
    constructor; [by apply IHs|].
    apply Forall_forall. intros r' Hr'.
    pose proof (proj1 (Forall_forall _ _) Hok _ Hr') as (Hy' & _).
    pose proof (proj1 (Forall_forall _ _) Hr _ Hr') as Hl.
    destruct Hr0 as (Hy0 & _). right. split; [congruence|done].
  - apply IH.
Qed.

Lemma grid_runs_sorted env model :
  StronglySorted run_before (grid_runs env model).
Proof. apply rows_runs_sorted. Qed.

Lemma rows_runs_complete env model n : ∀ y0 y x,
  y0 ≤ y < y0 + Z.of_nat n → 0 ≤ x < cols (_terminal env) →
  bg_at env model y x ≠ Some DEFAULT_COLOR →
  ∃ r, r ∈ rows_runs env model n y0 ∧ run_y r = y ∧ in_run r x.
Proof.
  induction n as [|n IH]; intros y0 y x Hy Hx Hbg; [lia|].
  cbn [rows_runs]. destruct (decide (y = y0)) as [->|Hne].
  - destruct (row_runs_complete (bg_at env model y0) y0 _ x Hx Hbg)
      as (r & Hr & Hin).
    exists r. split; [apply elem_of_app; by left|]. split; [|done].
    by pose proof (proj1 (Forall_forall _ _) (row_runs_ok _ _ _) _ Hr) as (? & _).
  - destruct (IH (y0 + 1) y x) as (r & Hr & ?); [lia|done|done|].
    exists r. split; [apply elem_of_app; by right|done].
Qed.

Lemma grid_runs_complete env model y x :
  0 ≤ y < rows (_terminal env) → 0 ≤ x < cols (_terminal env) →
  bg_at env model y x ≠ Some DEFAULT_COLOR →
  ∃ r, r ∈ grid_runs env model ∧ run_y r = y ∧ in_run r x.
Proof. intros Hy. apply rows_runs_complete. lia. Qed.

Lemma StronglySorted_lookup {A} (R : relation A) (l : list A) i j a b :
  StronglySorted R l → (i < j)%nat →
  l !! i = Some a → l !! j = Some b → R a b.
Proof.
  intros Hs Hij Ha Hb. rewrite <- (take_drop j l) in Hs.
  eapply StronglySorted_app_1_elem_of; [exact Hs| |].
  - apply list_elem_of_lookup. exists i. by rewrite lookup_take_lt.
  - apply list_elem_of_lookup. exists O. by rewrite lookup_drop, Nat.add_0_r.
Qed.

(** ** Color resolution *)

Lemma resolve_inverted env :
  _updateRectangle_color env (Some INVERTED_DEFAULT_COLOR)
  = Some (foreground (_colorManager env)).
Proof. unfold _updateRectangle_color. by rewrite bool_decide_eq_true_2. Qed.

Lemma resolve_default env :
  _updateRectangle_color env (Some DEFAULT_COLOR) = None.
Proof. reflexivity. Qed.

Lemma resolve_palette env c :
  palette_ok env → valid_code c = true →
  c ≠ DEFAULT_COLOR → c ≠ INVERTED_DEFAULT_COLOR →
  ∃ col, ansi (_colorManager env) !! Z.to_nat c = Some col
         ∧ _updateRectangle_color env (Some c) = Some col.
Proof.
  intros Hp Hv Hd Hi. unfold valid_code in Hv.
  destruct (Z.eqb_spec c DEFAULT_COLOR); [done|].
  destruct (Z.eqb_spec c INVERTED_DEFAULT_COLOR); [done|]. simpl in Hv.
  assert (Hc : 0 ≤ c < 256).
  { unfold is256Color in Hv. apply andb_true_iff in Hv as [? ?]. lia. }
  destruct (lookup_lt_is_Some_2 (ansi (_colorManager env)) (Z.to_nat c))
    as [col Hcol]; [unfold palette_ok in Hp; lia|].
  exists col. split; [done|]. unfold _updateRectangle_color.
  rewrite bool_decide_eq_false_2 by congruence. rewrite Hv.
  unfold array_get. destruct (Z.ltb_spec c 0); [lia|done].
Qed.

Lemma resolve_valid env c :
  palette_ok env → valid_code c = true → c ≠ DEFAULT_COLOR →
  is_Some (_updateRectangle_color env (Some c)).
Proof.
  intros Hp Hv Hd. destruct (decide (c = INVERTED_DEFAULT_COLOR)) as [->|Hi].
  - rewrite resolve_inverted. eauto.
  - destruct (resolve_palette env c) as (col & _ & ->); eauto.
Qed.

Lemma grid_runs_resolve env model r :
  grid_ok env model → palette_ok env → r ∈ grid_runs env model →
  is_Some (_updateRectangle_color env (run_bg r)).
Proof.
  intros Hg Hp Hr. apply grid_runs_ok in Hr as (y & Hy & Hok).
  destruct Hok as (_ & Hx & Hhi & Hd & Hf).
  destruct (Hg y (run_startX r)) as (c & Hc & Hv); [done|lia|].
  rewrite <- (Hf (run_startX r)), Hc in * by lia.
  apply resolve_valid; [done..|congruence].
Qed.

Lemma forallb_seqZ (p : Z → bool) m n :
  forallb p (seqZ m n) = true → ∀ k, m ≤ k < m + n → p k = true.
Proof.
  intros H k Hk. rewrite forallb_forall in H. apply H.
  apply list_elem_of_In, elem_of_seqZ. lia.
Qed.

Lemma grid_okb_ok env model : grid_okb env model = true → grid_ok env model.
Proof.
  intros H y x Hy Hx. unfold grid_okb in H.
  pose proof (forallb_seqZ _ _ _ H y ltac:(lia)) as Hrow. simpl in Hrow.
  pose proof (forallb_seqZ _ _ _ Hrow x ltac:(lia)) as Hcell. simpl in Hcell.
  destruct (bg_at env model y x) as [c|]; [eauto|done].
Qed.

Lemma palette_ok_env_of r c w h : palette_ok (env_of r c w h).
Proof. unfold palette_ok. simpl. lia. Qed.

(** ** Typed arrays *)

Lemma _addRectangle_inserts a offset x1 y1 w h r g b al :
  0 ≤ offset →
  _addRectangle a offset x1 y1 w h r g b al
  = list_inserts (Z.to_nat offset) [x1; y1; w; h; r; g; b; al] a.
Proof.
  intros Ho. unfold _addRectangle, array_store.
  repeat match goal with
         | |- context [?z <? 0] => destruct (Z.ltb_spec z 0); [lia|]
         end.
  replace (Z.to_nat (offset + 1)) with (S (Z.to_nat offset)) by lia.
  replace (Z.to_nat (offset + 2)) with (S (S (Z.to_nat offset))) by lia.
  replace (Z.to_nat (offset + 3)) with (3 + Z.to_nat offset)%nat by lia.
  replace (Z.to_nat (offset + 4)) with (4 + Z.to_nat offset)%nat by lia.
  replace (Z.to_nat (offset + 5)) with (5 + Z.to_nat offset)%nat by lia.
  replace (Z.to_nat (offset + 6)) with (6 + Z.to_nat offset)%nat by lia.
  replace (Z.to_nat (offset + 7)) with (7 + Z.to_nat offset)%nat by lia.
  generalize (Z.to_nat offset) as n. intros n. simpl.
  apply list_eq. intros j.
  rewrite !list_lookup_insert, !length_insert.
  repeat case_decide; try done; lia.
Qed.

Lemma list_inserts_app_in {A} (k : list A) : ∀ i (l z : list A),
  (i + length k ≤ length l)%nat →
  list_inserts i k (l ++ z) = list_inserts i k l ++ z.
Proof.
  induction k as [|y k IH]; intros i l z H; simpl in *; [done|].
  rewrite IH by lia. apply insert_app_l. rewrite length_inserts. lia.
Qed.

Lemma list_inserts_idemp {A} (k l : list A) i :
  list_inserts i k (list_inserts i k l) = list_inserts i k l.
Proof.
  apply list_eq. intros j.
  destruct (decide (j < i)%nat).
  { by rewrite !list_lookup_inserts_lt. }
  destruct (decide (i + length k ≤ j)%nat).
  { by rewrite !list_lookup_inserts_ge. }
  destruct (decide (j < length l)%nat).
  - rewrite !list_lookup_inserts; rewrite ?length_inserts; (done || lia).
  - rewrite !lookup_ge_None_2; rewrite ?length_inserts; (done || lia).
Qed.

Lemma list_inserts_in {A} (k l : list A) i :
  (i + length k ≤ length l)%nat →
  list_inserts i k l = take i l ++ k ++ drop (i + length k) l.
Proof.
  intros H.
  rewrite <- (take_drop i l) at 1.
  rewrite <- (take_drop (length k) (drop i l)) at 1.
  assert (Hi : length (take i l) = i) by (rewrite length_take; lia).
  rewrite <- Hi at 1.
  replace (length (take i l)) with (length (take i l) + 0)%nat at 1 by lia.
  rewrite list_inserts_app_r, list_inserts_0_r, drop_drop; [done|].
  rewrite length_take, length_drop. lia.
Qed.

Lemma length_array_store {A} (a : list A) i v :
  length (array_store a i v) = length a.
Proof. unfold array_store. destruct (i <? 0); [done|apply length_insert]. Qed.

Lemma length__addRectangleFloat a offset x1 y1 w h color :
  length (_addRectangleFloat a offset x1 y1 w h color) = length a.
Proof.
  destruct color as [[[c0 c1] c2] c3]. unfold _addRectangleFloat.
  by rewrite !length_array_store.
Qed.

Lemma take_8_addRectangleFloat a x1 y1 w h color :
  (8 ≤ length a)%nat →
  take 8 (_addRectangleFloat a 0 x1 y1 w h color)
  = [x1; y1; w; h; color.1.1.1; color.1.1.2; color.1.2; color.2].
Proof.
  intros Hlen. destruct color as [[[c0 c1] c2] c3].
  change (_addRectangleFloat a 0 x1 y1 w h (c0, c1, c2, c3))
    with (_addRectangle a 0 x1 y1 w h c0 c1 c2 c3).
  rewrite _addRectangle_inserts by lia.
  rewrite <- (take_drop 8 a) at 1.
  rewrite list_inserts_0_r by (rewrite length_take; cbn [length]; lia).
  done.
Qed.

Lemma typed_set_full {A} (target source : list A) :
  length target = length source → typed_set target source = Some source.
Proof.
  intros H. unfold typed_set. rewrite H, Nat.ltb_irrefl.
  by rewrite <- H, drop_all, app_nil_r.
Qed.

Lemma typed_set_prefix {A} (target source : list A) :
  (length source ≤ length target)%nat →
  typed_set target source = Some (source ++ drop (length source) target).
Proof.
  intros H. unfold typed_set. by destruct (Nat.ltb_spec (length target) (length source)); [lia|].
Qed.

Lemma length_typed_set {A} (target source result : list A) :
  typed_set target source = Some result → length result = length target.
Proof.
  unfold typed_set. destruct (Nat.ltb_spec (length target) (length source));
    [done|]. intros [= <-]. rewrite length_app, length_drop. lia.
Qed.

Lemma fill_prefix {A} (source rest : list A) (value : A) :
  fill (source ++ rest) value (length source)
  = source ++ replicate (length rest) value.
Proof.
  unfold fill. rewrite take_app_length, length_app. do 2 f_equal. lia.
Qed.

Lemma fill_all {A} (array : list A) (value : A) :
  fill array value 0 = replicate (length array) value.
Proof. unfold fill. rewrite take_0, Nat.sub_0_r. done. Qed.

Lemma length_fill {A} (array : list A) value start :
  length (fill array value start) = length array.
Proof.
  unfold fill. rewrite length_app, length_take, length_replicate. lia.
Qed.

(** ** Growing the buffer and writing the runs *)

Lemma expand_pad a n :
  ∃ pad : nat,
    expandFloat32Array a n = a ++ replicate pad (num 0)
    ∧ n ≤ Z.of_nat (length a + pad)
    ∧ (n ≤ Z.of_nat (length a) → pad = O)
    ∧ (pad = O ∨ Z.of_nat (length a + pad) = Z.max (2 * Z.of_nat (length a)) n).
Proof.
  unfold expandFloat32Array. destruct (Z.ltb_spec (Z.of_nat (length a)) n).
  - eexists. split; [done|]. lia.
  - exists O. rewrite app_nil_r. split; [done|]. lia.
Qed.

Lemma grown_pad env a offset :
  ∃ pad : nat,
    grown env a offset = a ++ replicate pad (num 0)
    ∧ (Z.of_nat (length a) < offset + 4 → grid_floats env ≤ Z.of_nat (length a + pad))
    ∧ (grid_floats env ≤ Z.of_nat (length a) → pad = O)
    ∧ (offset + 4 ≤ Z.of_nat (length a) → pad = O)
    ∧ (whole_rectangles a → whole_rectangles (a ++ replicate pad (num 0))).
Proof.
  unfold grown. fold (grid_floats env).
  destruct (Z.ltb_spec (Z.of_nat (length a)) (offset + 4)).
  - destruct (expand_pad a (grid_floats env)) as (pad & -> & H1 & H2 & H3).
    exists pad. repeat split; [done|done|lia|].
    intros [q Hq]. unfold whole_rectangles.
    rewrite length_app, length_replicate.
    destruct H3 as [->|H3]; [exists q; lia|].
    exists (Z.to_nat (Z.max (2 * Z.of_nat q)
                        (rows (_terminal env) * cols (_terminal env)))).
    unfold grid_floats, INDICES_PER_RECTANGLE in H3. lia.
  - exists O. rewrite app_nil_r. repeat split; try done; lia.
Qed.

Lemma length_run_rectangle env r c :
  _updateRectangle_color env (run_bg r) = Some c →
  length (run_rectangle env r) = 8%nat.
Proof. unfold run_rectangle. by intros ->. Qed.

Lemma _updateRectangle_eq env v offset r c :
  _updateRectangle_color env (run_bg r) = Some c →
  _updateRectangle env v offset (run_bg r) (run_startX r) (run_endX r) (run_y r)
  = Some (with_attributes v
            (_addRectangle (grown env (attributes v) offset) offset
               (num (run_startX r * scaledCellWidth (_dimensions env)))
               (num (run_y r * scaledCellHeight (_dimensions env)))
               (num ((run_endX r - run_startX r)
                     * scaledCellWidth (_dimensions env)))
               (num (scaledCellHeight (_dimensions env)))
               (channel c 24) (channel c 16) (channel c 8) (num 1))).
Proof.
  intros Hc. unfold _updateRectangle, grown. rewrite Hc. cbn [mbind option_bind].
  by destruct (_ <? _).
Qed.

Lemma write_run_eq env v k r c :
  0 ≤ k → _updateRectangle_color env (run_bg r) = Some c →
  write_run env v k r
  = Some (with_attributes v
            (list_inserts (Z.to_nat (k * 8)) (run_rectangle env r)
               (grown env (attributes v) (k * 8)))).
Proof.
  intros Hk Hc. unfold write_run. rewrite (_updateRectangle_eq _ _ _ _ c Hc).
  unfold INDICES_PER_RECTANGLE. rewrite _addRectangle_inserts by lia.
  unfold run_rectangle. by rewrite Hc.
Qed.

Lemma write_run_None env v k r :
  _updateRectangle_color env (run_bg r) = None → write_run env v k r = None.
Proof. intros Hc. unfold write_run, _updateRectangle. by rewrite Hc. Qed.

Lemma write_runs_length env rs : ∀ k v p,
  write_runs env rs k v = Some p → p.1 = k + Z.of_nat (length rs).
Proof.
  induction rs as [|r rs IH]; intros k v p H; simpl in *.
  - injection H as <-. simpl. lia.
  - destruct (write_run env v k r) as [v'|]; [|done]. simpl in H.
    apply IH in H. lia.
Qed.

Lemma write_runs_is_Some env rs : ∀ k v,
  (∀ r, r ∈ rs → is_Some (_updateRectangle_color env (run_bg r))) →
  is_Some (write_runs env rs k v).
Proof.
  induction rs as [|r rs IH]; intros k v H; simpl; [eauto|].
  destruct (H r) as [c Hc]; [by left|]. unfold write_run.
  rewrite (_updateRectangle_eq _ _ _ _ c Hc). cbn [mbind option_bind].
  apply IH. intros r' Hr'. apply H. by right.
Qed.

Lemma write_runs_resolved env rs : ∀ k v p,
  write_runs env rs k v = Some p →
  ∀ r, r ∈ rs → is_Some (_updateRectangle_color env (run_bg r)).
Proof.
  induction rs as [|r rs IH]; intros k v p H r' Hr'.
  - by apply elem_of_nil in Hr'.
  - cbn [write_runs] in H.
    destruct (_updateRectangle_color env (run_bg r)) as [c|] eqn:Hc;
      [|by rewrite write_run_None in H].
    destruct (write_run env v k r) as [v'|]; [|done]. simpl in H.
    apply elem_of_cons in Hr' as [->|Hr']; [by rewrite Hc|]. eauto.
Qed.

(** The writes of a list of runs, in closed form: the buffer is padded
    once, and the rectangles are laid one after the other from slot [k];
    what falls outside the padded buffer is lost.  The padding is described
    by three facts: a slot that does not fit is evidence that the buffer
    has reached the grid size; a buffer of the grid size is not padded; and
    nothing is padded when every capacity check passes. *)
Lemma write_runs_closed env rs : ∀ k v p,
  0 ≤ k → whole_rectangles (attributes v) →
  write_runs env rs k v = Some p →
  ∃ pad : nat,
    count p.2 = count v
    ∧ attributes p.2 =
        list_inserts (Z.to_nat (k * 8)) (rectangles env rs)
          (attributes v ++ replicate pad (num 0))
    ∧ whole_rectangles (attributes p.2)
    ∧ (∀ j, k ≤ j < k + Z.of_nat (length rs) →
         Z.of_nat (length (attributes v) + pad) < j * 8 + 4 →
         grid_floats env ≤ Z.of_nat (length (attributes v) + pad))
    ∧ (grid_floats env ≤ Z.of_nat (length (attributes v)) → pad = O)
    ∧ ((∀ j, k ≤ j < k + Z.of_nat (length rs) →
          j * 8 + 4 ≤ Z.of_nat (length (attributes v))) → pad = O).
Proof.
  induction rs as [|r rs IH]; intros k v p Hk Hw H.
  - simpl in H. injection H as <-. exists O. simpl. rewrite app_nil_r.
    repeat split; try done. intros; lia.
  - cbn [write_runs] in H.
    destruct (_updateRectangle_color env (run_bg r)) as [c|] eqn:Hc;
      [|by rewrite write_run_None in H].
    rewrite (write_run_eq _ _ _ _ c Hk Hc) in H. cbn [mbind option_bind] in H.
    destruct (grown_pad env (attributes v) (k * 8))
      as (pad1 & Hg & G1 & G2 & G3 & G4).
    rewrite Hg in H. specialize (G4 Hw).
    pose proof (length_run_rectangle _ _ _ Hc) as Hlen.
    apply IH in H as (pad2 & C & A & W & P & Q & R); [|lia|]; cycle 1.
    { destruct G4 as [q Hq]. exists q. simpl. by rewrite length_inserts. }
    cbn [attributes count with_attributes] in *.
    rewrite length_inserts, length_app, length_replicate in P, Q, R.
    assert (Hpad2 : (Z.of_nat (length (attributes v) + pad1) < k * 8 + 8) → pad2 = O).
    { intros Hlt. apply Q. apply G1. destruct G4 as [q Hq].
      rewrite length_app, length_replicate in Hq. lia. }
    exists (pad1 + pad2)%nat. split; [done|]. split; [|split; [done|]].
    + rewrite A. unfold rectangles. rewrite fmap_cons. cbn [concat].
      fold (rectangles env rs). rewrite list_inserts_app_l, Hlen.
      replace (Z.to_nat ((k + 1) * 8)) with (8 + Z.to_nat (k * 8))%nat by lia.
      f_equal. rewrite replicate_add, app_assoc.
      destruct (decide (Z.of_nat (length (attributes v) + pad1) < k * 8 + 8)) as [Hlt|Hge].
      * rewrite (Hpad2 Hlt). simpl. by rewrite !app_nil_r.
      * symmetry. apply list_inserts_app_in.
        rewrite length_app, length_replicate. lia.
    + split; [|split].
      * intros j Hj Hlt. cbn [length] in Hj.
        destruct (decide (j = k)) as [->|Hne].
        -- assert (grid_floats env ≤ Z.of_nat (length (attributes v) + pad1)) by (apply G1; lia).
           lia.
        -- replace (length (attributes v) + (pad1 + pad2))%nat
             with (length (attributes v) + pad1 + pad2)%nat by lia.
           apply (P j); lia.
      * intros Hn. rewrite (G2 Hn) in *. rewrite Q; [done|]. lia.
      * intros Hall. cbn [length] in Hall.
        assert (pad1 = O) as -> by (apply G3, Hall; lia).
        rewrite R; [done|]. intros j Hj. specialize (Hall j). lia.
Qed.

(** Writing the same runs again changes nothing. *)
Lemma write_runs_twice env rs k v p :
  0 ≤ k → whole_rectangles (attributes v) →
  write_runs env rs k v = Some p →
  write_runs env rs k p.2 = Some p.
Proof.
  intros Hk Hw H1.
  destruct (write_runs_is_Some env rs k p.2) as [p2 H2];
    [by eapply write_runs_resolved|].
  pose proof (write_runs_length _ _ _ _ _ H1) as L1.
  pose proof (write_runs_length _ _ _ _ _ H2) as L2.
  destruct (write_runs_closed _ _ _ _ _ Hk Hw H1)
    as (pad & C & A & W & P & Q & R).
  destruct (write_runs_closed _ _ _ _ _ Hk W H2)
    as (pad' & C' & A' & _ & _ & Q' & R').
  assert (pad' = O) as ->.
  { rewrite A, length_inserts, length_app, length_replicate in Q', R'.
    destruct (decide (grid_floats env ≤ Z.of_nat (length (attributes v) + pad)))
      as [?|Hn]; [by apply Q'|].
    apply R'. intros j Hj. specialize (P j Hj). lia. }
  rewrite H2. f_equal. destruct p as [k1 [a1 c1]], p2 as [k2 [a2 c2]].
  simpl in *. rewrite app_nil_r in A'. subst a2.
  rewrite A, list_inserts_idemp. do 2 f_equal; lia.
Qed.

(** Writes from slot 1 on leave slot 0 as it is. *)
Lemma write_runs_slot0 env rs k v p :
  1 ≤ k → whole_rectangles (attributes v) →
  (8 ≤ length (attributes v))%nat →
  write_runs env rs k v = Some p →
  take 8 (attributes p.2) = take 8 (attributes v).
Proof.
  intros Hk Hw Hlen H. assert (Hk0 : 0 ≤ k) by lia.
  destruct (write_runs_closed _ _ _ _ _ Hk0 Hw H) as (pad & _ & A & _).
  rewrite A. apply list_eq. intros j.
  destruct (decide (j < 8)%nat).
  - rewrite !lookup_take_lt by lia.
    rewrite list_lookup_inserts_lt by lia.
    by rewrite lookup_app_l by lia.
  - by rewrite !lookup_take_ge by lia.
Qed.

Lemma _updateRectangle_with_count env v c offset bg sx ex y :
  _updateRectangle env (with_count v c) offset bg sx ex y
  = (v' ← _updateRectangle env v offset bg sx ex y; Some (with_count v' c)).
Proof.
  unfold _updateRectangle. simpl.
  destruct (_updateRectangle_color env bg); simpl; [|done].
  by destruct (_ <? _).
Qed.

(** The writes neither read nor change [count]. *)
Lemma write_runs_with_count env rs c : ∀ k v,
  write_runs env rs k (with_count v c)
  = (p ← write_runs env rs k v; Some (p.1, with_count p.2 c)).
Proof.
  induction rs as [|r rs IH]; intros k v; [done|].
  cbn [write_runs]. unfold write_run. rewrite _updateRectangle_with_count.
  destruct (_updateRectangle env v _ _ _ _ _) as [v'|]; [|done].
  cbn [mbind option_bind]. apply IH.
Qed.

Lemma length_rectangles env rs :
  (∀ r, r ∈ rs → is_Some (_updateRectangle_color env (run_bg r))) →
  length (rectangles env rs) = (8 * length rs)%nat.
Proof.
  induction rs as [|r rs IH]; intros H; [done|].
  unfold rectangles. rewrite fmap_cons. cbn [concat]. fold (rectangles env rs).
  destruct (H r) as [c Hc]; [by left|].
  rewrite length_app, (length_run_rectangle _ _ _ Hc), IH; [simpl; lia|].
  intros r' Hr'. apply H. by right.
Qed.

Lemma rectangles_lookup env rs : ∀ i r,
  (∀ r, r ∈ rs → is_Some (_updateRectangle_color env (run_bg r))) →
  rs !! i = Some r →
  take 8 (drop (8 * i) (rectangles env rs)) = run_rectangle env r.
Proof.
  induction rs as [|r0 rs IH]; intros i r H Hi; [done|].
  unfold rectangles. rewrite fmap_cons. cbn [concat]. fold (rectangles env rs).
  destruct (H r0) as [c Hc]; [by left|].
  pose proof (length_run_rectangle _ _ _ Hc) as Hlen.
  destruct i as [|i]; simpl in Hi.
  - injection Hi as <-. rewrite Nat.mul_0_r, drop_0.
    rewrite take_app_length'; done.
  - replace (8 * S i)%nat with (length (run_rectangle env r0) + 8 * i)%nat by lia.
    rewrite drop_app_add. apply IH; [|done]. intros r' Hr'. apply H. by right.
Qed.

Lemma slot_inserts (data base : list Q) i :
  (8 + length data ≤ length base)%nat → (8 * i + 8 ≤ length data)%nat →
  slot (list_inserts 8 data base) (1 + Z.of_nat i)
  = Some (take 8 (drop (8 * i) data)).
Proof.
  intros Hb Hd. unfold slot.
  destruct (Z.ltb_spec (1 + Z.of_nat i) 0); [lia|].
  replace (Z.to_nat ((1 + Z.of_nat i) * 8)) with (8 + 8 * i)%nat by lia.
  rewrite list_inserts_in by done.
  rewrite <- drop_drop.
  rewrite drop_app_length' by (rewrite length_take; lia).
  rewrite drop_app_le by lia.
  rewrite take_app_le by (rewrite length_drop; lia).
  rewrite length_take, length_drop.
  by destruct (Nat.eqb_spec (8 `min` (length data - 8 * i)) 8); [|lia].
Qed.

(** ** [updateBackgrounds] as a whole *)

Lemma updateBackgrounds_is_Some env model this :
  grid_ok env model → palette_ok env →
  is_Some (updateBackgrounds env model this).
Proof.
  intros Hg Hp. rewrite updateBackgrounds_runs.
  destruct (write_runs_is_Some env (grid_runs env model) 1 (_vertices this))
    as [p Hw]; [eauto using grid_runs_resolve|].
  rewrite Hw. simpl. eauto.
Qed.

Lemma updateBackgrounds_count env model this this' :
  updateBackgrounds env model this = Some this' →
  count (_vertices this') = 1 + Z.of_nat (grid_run_count env model).
Proof.
  rewrite updateBackgrounds_runs. intros H.
  destruct (write_runs env _ 1 _) as [p|] eqn:Hw; [|done].
  simpl in H. injection H as <-. simpl.
  apply write_runs_length in Hw. by rewrite Hw, grid_runs_count.
Qed.

Lemma updateBackgrounds_twice env model this this1 :
  whole_rectangles (attributes (_vertices this)) →
  updateBackgrounds env model this = Some this1 →
  updateBackgrounds env model this1 = Some this1.
Proof.
  intros Hw. rewrite !updateBackgrounds_runs. intros H.
  destruct (write_runs env _ 1 (_vertices this)) as [p|] eqn:H1; [|done].
  simpl in H. injection H as <-.
  assert (H2 := write_runs_twice env _ 1 _ _ ltac:(lia) Hw H1).
  cbn [_vertices with_vertices].
  rewrite write_runs_with_count, H2. by destruct p as [k1 [a1 c1]].
Qed.

Lemma whole_rectangles_new env :
  whole_rectangles (attributes (_vertices (new_RectangleRenderer env)))
  ∧ (8 ≤ length (attributes (_vertices (new_RectangleRenderer env))))%nat.
Proof. split; [by exists 20%nat | simpl; lia]. Qed.

Lemma whole_rectangles_onResize env this :
  whole_rectangles (attributes (_vertices this)) →
  whole_rectangles (attributes (_vertices (onResize env this))).
Proof.
  intros [q Hq]. exists q. unfold onResize, _updateViewportRectangle.
  cbn [_vertices with_vertices attributes with_attributes].
  by rewrite length__addRectangleFloat.
Qed.

Lemma whole_rectangles_onThemeChanged env this :
  whole_rectangles (attributes (_vertices this)) →
  whole_rectangles (attributes (_vertices (onThemeChanged env this))).
Proof.
  intros [q Hq]. exists q. unfold onThemeChanged, _updateViewportRectangle.
  cbn [_vertices with_vertices attributes with_attributes _updateCachedColors].
  by rewrite length__addRectangleFloat.
Qed.

Lemma whole_rectangles_updateBackgrounds env model this this' :
  whole_rectangles (attributes (_vertices this)) →
  updateBackgrounds env model this = Some this' →
  whole_rectangles (attributes (_vertices this')).
Proof.
  intros Hw. rewrite updateBackgrounds_runs. intros H.
  destruct (write_runs env _ 1 (_vertices this)) as [p|] eqn:H1; [|done].
  simpl in H. injection H as <-. simpl.
  by destruct (write_runs_closed env _ 1 _ _ ltac:(lia) Hw H1)
    as (? & _ & _ & W & _).
Qed.

(** [updateBackgrounds] never shrinks the buffer. *)
Lemma length_updateBackgrounds env model this this' :
  whole_rectangles (attributes (_vertices this)) →
  updateBackgrounds env model this = Some this' →
  (length (attributes (_vertices this))
   ≤ length (attributes (_vertices this')))%nat.
Proof.
  intros Hw. rewrite updateBackgrounds_runs. intros H.
  destruct (write_runs env _ 1 (_vertices this)) as [p|] eqn:H1; [|done].
  simpl in H. injection H as <-. simpl.
  destruct (write_runs_closed env _ 1 _ _ ltac:(lia) Hw H1)
    as (pad & _ & -> & _).
  rewrite length_inserts, length_app. lia.
Qed.

(** With room in the buffer every write lands inside it: every run of the
    grid is stored in its slot, in order, from slot 1 on. *)
Lemma updateBackgrounds_stored env model this :
  grid_ok env model → palette_ok env →
  whole_rectangles (attributes (_vertices this)) →
  (8 ≤ length (attributes (_vertices this)))%nat →
  has_room env model (attributes (_vertices this)) →
  ∃ this',
    updateBackgrounds env model this = Some this'
    ∧ count (_vertices this') = 1 + Z.of_nat (length (grid_runs env model))
    ∧ count (_vertices this') * 8
      ≤ Z.of_nat (length (attributes (_vertices this')))
    ∧ ∀ i r, grid_runs env model !! i = Some r →
        slot (attributes (_vertices this')) (1 + Z.of_nat i)
        = Some (run_rectangle env r).
Proof.
  intros Hg Hp Hw Hlen Hroom. rewrite updateBackgrounds_runs.
  assert (Hres : ∀ r, r ∈ grid_runs env model →
                      is_Some (_updateRectangle_color env (run_bg r)))
    by eauto using grid_runs_resolve.
  destruct (write_runs_is_Some env (grid_runs env model) 1 (_vertices this) Hres)
    as [p Hp1].
  rewrite Hp1. cbn [mbind option_bind]. eexists. split; [done|].
  cbn [_vertices with_vertices count with_count attributes].
  pose proof (write_runs_length _ _ _ _ _ Hp1) as Hk.
  destruct (write_runs_closed env _ 1 _ _ ltac:(lia) Hw Hp1)
    as (pad & _ & A & [q Hq] & P & _ & _).
  pose proof (length_rectangles env _ Hres) as Hdata.
  unfold has_room in Hroom. rewrite <- grid_runs_count in Hroom.
  assert (Hfit : (8 + length (rectangles env (grid_runs env model))
                  ≤ length (attributes (_vertices this) ++ replicate pad (num 0)))%nat).
  { rewrite A, length_inserts in Hq.
    rewrite length_app, length_replicate in Hq |- *. rewrite Hdata.
    destruct (grid_runs env model) as [|r0 rs] eqn:E; [simpl; lia|].
    rewrite <- E in *.
    assert (Hn : (0 < length (grid_runs env model))%nat) by (rewrite E; simpl; lia).
    destruct (decide (8 + 8 * length (grid_runs env model)
                      ≤ length (attributes (_vertices this)) + pad)%nat);
      [done|].
    specialize (P (Z.of_nat (length (grid_runs env model))) ltac:(lia) ltac:(lia)).
    lia. }
  split; [done|]. split.
  - rewrite Hk, A, length_inserts. lia.
  - intros i r Hi. rewrite A.
    pose proof (lookup_lt_Some _ _ _ Hi) as Hlt.
    rewrite slot_inserts by (done || lia).
    f_equal. by apply rectangles_lookup.
Qed.

Lemma stored_slot env model this' k s :
  count (_vertices this') = 1 + Z.of_nat (length (grid_runs env model)) →
  (∀ i r, grid_runs env model !! i = Some r →
     slot (attributes (_vertices this')) (1 + Z.of_nat i)
     = Some (run_rectangle env r)) →
  1 ≤ k < count (_vertices this') →
  slot (attributes (_vertices this')) k = Some s →
  ∃ r, grid_runs env model !! Z.to_nat (k - 1) = Some r
       ∧ s = run_rectangle env r.
Proof.
  intros Hc Hslot Hk Hs.
  destruct (lookup_lt_is_Some_2 (grid_runs env model) (Z.to_nat (k - 1)))
    as [r Hr]; [lia|].
  exists r. split; [done|]. apply Hslot in Hr.
  replace (1 + Z.of_nat (Z.to_nat (k - 1))) with k in Hr by lia. congruence.
Qed.

(** ** Pixels *)

Lemma Qle_bool_num a b : Qle_bool (num a) (num b) = (a <=? b).
Proof. unfold Qle_bool, num. simpl. by rewrite !Z.mul_1_r. Qed.

Lemma Qle_bool_num_plus a w b :
  Qle_bool (num a + num w) (num b) = (a + w <=? b).
Proof. unfold Qle_bool, num, Qplus. simpl. by rewrite !Z.mul_1_r. Qed.

Lemma in_rectangle_run env r c px py :
  _updateRectangle_color env (run_bg r) = Some c →
  in_rectangle (run_rectangle env r) px py = true ↔
  run_startX r * scaledCellWidth (_dimensions env) ≤ px
    < run_endX r * scaledCellWidth (_dimensions env)
  ∧ run_y r * scaledCellHeight (_dimensions env) ≤ py
    < (run_y r + 1) * scaledCellHeight (_dimensions env).
Proof.
  intros Hc. unfold run_rectangle. rewrite Hc. unfold rectangle, in_rectangle.
  rewrite !Qle_bool_num, !Qle_bool_num_plus.
  rewrite !andb_true_iff, !negb_true_iff, !Z.leb_le, !Z.leb_gt. lia.
Qed.

Lemma in_cell_iff env cx cy px py :
  in_cell env cx cy px py = true ↔
  cx * scaledCellWidth (_dimensions env) ≤ px
    < (cx + 1) * scaledCellWidth (_dimensions env)
  ∧ cy * scaledCellHeight (_dimensions env) ≤ py
    < (cy + 1) * scaledCellHeight (_dimensions env).
Proof.
  unfold in_cell. rewrite !andb_true_iff, !Z.leb_le, !Z.ltb_lt. lia.
Qed.

(** A pixel column lies in the extent of a run exactly when it lies in
    the extent of one of its cells. *)
Lemma pixel_in_run_cells w a b px :
  0 < w → (a * w ≤ px < b * w ↔ ∃ cx, a ≤ cx < b ∧ cx * w ≤ px < (cx + 1) * w).
Proof.
  intros Hw. split.
  - intros H. exists (px / w).
    pose proof (Z.mul_div_le px w Hw).
    pose proof (Z.mul_succ_div_gt px w Hw).
    split; nia.
  - intros (cx & ? & ?). nia.
Qed.

Lemma covered_iff v px py :
  covered v px py = true ↔
  ∃ k s, 1 ≤ k < count v ∧ slot (attributes v) k = Some s
         ∧ in_rectangle s px py = true.
Proof.
  unfold covered. rewrite existsb_exists. split.
  - intros (k & Hk & H). apply list_elem_of_In, elem_of_seqZ in Hk.
    destruct (slot (attributes v) k) as [s|] eqn:Hs; [|done].
    exists k, s. split; [lia|done].
  - intros (k & s & Hk & Hs & H). exists k. split.
    + apply list_elem_of_In, elem_of_seqZ. lia.
    + by rewrite Hs.
Qed.

(** * Selection geometry *)

Lemma selection_wf_new env : selection_wf (new_RectangleRenderer env).
Proof. by split. Qed.

(** [updateSelection] keeps the sizes of the two selection arrays. *)
Lemma selection_wf_updateSelection env model columnSelectMode this this' :
  selection_wf this →
  updateSelection env model columnSelectMode this = Some this' →
  selection_wf this'.
Proof.
  intros [Hv Ho]. unfold updateSelection, selection_wf. cbv zeta.
  destruct (hasSelection model); cbn [negb].
  - destruct columnSelectMode.
    + destruct (typed_set (vertices _) _) as [vs|] eqn:E1; [|done].
      cbn [mbind option_bind].
      destruct (typed_set (outlineIndices _) _) as [oi|] eqn:E2; [|done].
      intros [= <-]. cbn. rewrite length_fill.
      by rewrite (length_typed_set _ _ _ E1), (length_typed_set _ _ _ E2).
    + destruct (typed_set (vertices _) _) as [vs|] eqn:E1; [|done].
      cbn [mbind option_bind].
      destruct (typed_set (outlineIndices _) _) as [oi|] eqn:E2; [|done].
      intros [= <-]. cbn.
      by rewrite (length_typed_set _ _ _ E1), (length_typed_set _ _ _ E2).
  - intros [= <-]. cbn. by rewrite length_fill.
Qed.

(** C3, as it holds.  Without a selection, [updateSelection] zero-fills
    the whole vertex buffer, all 40 floats, and returns; the outline
    indices, and everything else, stay as they were. *)
Theorem selection_clear env model columnSelectMode this :
  selection_wf this → hasSelection model = false →
  updateSelection env model columnSelectMode this =
  Some (with_selectionVertices this
          {| vertices := replicate 40 (num 0);
             outlineIndices := outlineIndices (_selectionVertices this) |}).
Proof.
  intros [Hv _] Hs. unfold updateSelection. rewrite Hs. cbn [negb]. cbv zeta.
  by rewrite fill_all, Hv.
Qed.

Lemma selection_clear_witness :
  selection_wf renderer_with_selection
  ∧ hasSelection selection_none = false
  ∧ updateSelection (env_of 24 80 10 20) selection_none false
      renderer_with_selection
    = Some (with_selectionVertices renderer_with_selection
              {| vertices := replicate 40 (num 0);
                 outlineIndices := outline_single_row |}).
Proof.
  split; [split; reflexivity|]. split; [reflexivity|].
  apply (selection_clear (env_of 24 80 10 20) selection_none false
           renderer_with_selection);
    [split; reflexivity | reflexivity].
Defined.

(** C3, as stated, fails: after a single-row selection is drawn and then
    cleared, the vertex buffer is all zeros but the outline array still
    holds the four segments of the rectangle. *)
Lemma selection_clear_keeps_outline :
  ¬ (∀ env model columnSelectMode this this',
       selection_wf this → hasSelection model = false →
       updateSelection env model columnSelectMode this = Some this' →
       vertices (_selectionVertices this') = replicate 40 (num 0)
       ∧ active_segments (outlineIndices (_selectionVertices this')) = []).
Proof.
  intros H.
  assert (∃ this1 this2,
            updateSelection (env_of 24 80 10 20) selection_single_row false
              (new_RectangleRenderer (env_of 24 80 10 20)) = Some this1
            ∧ selection_wf this1
            ∧ updateSelection (env_of 24 80 10 20) selection_none false this1
              = Some this2
            ∧ active_segments (outlineIndices (_selectionVertices this2))
              = [(0, 1); (1, 3); (3, 2); (2, 0)])
    as (this1 & this2 & _ & Hwf & E2 & Hact).
  { do 2 eexists. split; [vm_compute; reflexivity|].
    split; [split; reflexivity|]. split; reflexivity. }
  destruct (H _ selection_none _ _ _ Hwf eq_refl E2) as [_ Hnone].
  by rewrite Hact in Hnone.
Qed.

(** C4, at an input where it fails.  The selection starts on the last row
    of the viewport and ends below it: the capped start and end rows are
    equal, the clipped end column is the number of columns (80), but
    [startRowEndCol] is the end column of the model (2), and the top right
    vertex is placed at [2 * 10] instead of [80 * 10]. *)
Theorem startRowEndCol_below_viewport :
  local_endCol (env_of 24 80 10 20) selection_below_viewport = 80
  ∧ startRowEndCol (env_of 24 80 10 20) selection_below_viewport = 2
  ∧ ∃ this',
      updateSelection (env_of 24 80 10 20) selection_below_viewport false
        (new_RectangleRenderer (env_of 24 80 10 20)) = Some this'
      ∧ vertices (_selectionVertices this') !! 0%nat = Some (num 50)
      ∧ vertices (_selectionVertices this') !! 4%nat = Some (num 20).
Proof.
  split; [reflexivity|]. split; [reflexivity|].
  eexists. split; [vm_compute; reflexivity|]. split; reflexivity.
Qed.

(** Where the end row of the selection is inside the viewport, the top
    row's right edge is the clipped end column when the capped start and
    end rows are equal, and the number of columns otherwise. *)
Lemma startRowEndCol_in_viewport env model :
  viewportEndRow model = viewportCappedEndRow model →
  startRowEndCol env model =
  if viewportCappedStartRow model =? viewportCappedEndRow model
  then local_endCol env model else cols (_terminal env).
Proof.
  intros H. unfold startRowEndCol, local_endCol.
  by rewrite H, Z.eqb_refl.
Qed.

(** C5. In range-select mode with a selection, the sixteen outline indices
    are one of three fixed sequences, chosen by a decision table on the
    clipped bounds: the four-corner loop padded with zeros when the end row
    is the start row; two four-corner loops when the end row is the row
    after the start row and the start column is greater than the end
    column; the staircase perimeter in every other case. *)
Theorem range_outline_decision_table env model this :
  selection_wf this → hasSelection model = true →
  ∃ this',
    updateSelection env model false this = Some this'
    ∧ outlineIndices (_selectionVertices this') =
        if viewportCappedEndRow model =? viewportCappedStartRow model
        then outline_single_row
        else if (viewportCappedEndRow model - viewportCappedStartRow model =? 1)
                && (local_startCol model >? local_endCol env model)
        then outline_two_rectangles
        else outline_staircase.
Proof.
  intros [Hv Ho] Hs. unfold updateSelection. rewrite Hs. cbn [negb]. cbv zeta.
  rewrite (typed_set_full (vertices _)) by (rewrite Hv; reflexivity).
  cbn [mbind option_bind].
  rewrite (typed_set_full (outlineIndices _))
    by (rewrite Ho; by repeat case_match).
  cbn [mbind option_bind].
  eexists. split.
  - reflexivity.
  - cbn [_selectionVertices with_selectionVertices outlineIndices].
    destruct (Z.eqb_spec (viewportCappedEndRow model - viewportCappedStartRow model) 0),
      (Z.eqb_spec (viewportCappedEndRow model) (viewportCappedStartRow model));
      try lia; done.
Qed.

Lemma range_outline_decision_table_witness :
  selection_wf (new_RectangleRenderer (env_of 24 80 10 20))
  ∧ hasSelection selection_single_row = true
  ∧ ∃ this',
      updateSelection (env_of 24 80 10 20) selection_single_row false
        (new_RectangleRenderer (env_of 24 80 10 20)) = Some this'
      ∧ outlineIndices (_selectionVertices this') = outline_single_row.
Proof.
  split; [split; reflexivity|]. split; [reflexivity|].
  apply (range_outline_decision_table (env_of 24 80 10 20)
           selection_single_row (new_RectangleRenderer (env_of 24 80 10 20)));
    [split; reflexivity | reflexivity].
Defined.

(** C10. In column-select mode with a selection, [updateSelection] writes
    the four corners of the block as vertices 0 to 3, with x-insets +1 and
    -1 and y-inset +1 throughout, and zero-fills vertices 4 to 9 (the
    floats 16 to 39): nothing of the previous contents of the vertex
    buffer remains. *)
Theorem column_select_vertices env model this :
  selection_wf this → hasSelection model = true →
  ∃ this',
    updateSelection env model true this = Some this'
    ∧ vertices (_selectionVertices this') =
        [ num (scaledCellWidth (_dimensions env) * local_startCol model);
          num (scaledCellHeight (_dimensions env) * viewportCappedStartRow model);
          num 1; num 1;
          num (scaledCellWidth (_dimensions env) * local_endCol env model);
          num (scaledCellHeight (_dimensions env) * viewportCappedStartRow model);
          num (-1); num 1;
          num (scaledCellWidth (_dimensions env) * local_startCol model);
          num (scaledCellHeight (_dimensions env) * (viewportCappedEndRow model + 1));
          num 1; num 1;
          num (scaledCellWidth (_dimensions env) * local_endCol env model);
          num (scaledCellHeight (_dimensions env) * (viewportCappedEndRow model + 1));
          num (-1); num 1 ]
        ++ replicate 24 (num 0).
Proof.
  intros [Hv Ho] Hs. unfold updateSelection. rewrite Hs. cbn [negb]. cbv zeta.
  rewrite (typed_set_prefix (vertices _)) by (rewrite Hv; simpl; lia).
  cbn [mbind option_bind].
  rewrite (typed_set_full (outlineIndices _)) by (rewrite Ho; reflexivity).
  cbn [mbind option_bind].
  eexists. split; [reflexivity|].
  cbn [_selectionVertices with_selectionVertices vertices fst snd].
  match goal with
  | |- fill (?src ++ ?rest) _ _ = _ =>
      change (4 * 4)%nat with (length src); rewrite fill_prefix
  end.
  by rewrite length_drop, Hv.
Qed.

Lemma column_select_vertices_witness :
  selection_wf (new_RectangleRenderer (env_of 24 80 10 20))
  ∧ hasSelection selection_single_row = true
  ∧ ∃ this',
      updateSelection (env_of 24 80 10 20) selection_single_row true
        (new_RectangleRenderer (env_of 24 80 10 20)) = Some this'
      ∧ vertices (_selectionVertices this') =
          [ num 10; num 40; num 1; num 1; num 40; num 40; num (-1); num 1;
            num 10; num 60; num 1; num 1; num 40; num 60; num (-1); num 1 ]
          ++ replicate 24 (num 0).
Proof.
  split; [split; reflexivity|]. split; [reflexivity|].
  apply (column_select_vertices (env_of 24 80 10 20) selection_single_row
           (new_RectangleRenderer (env_of 24 80 10 20)));
    [split; reflexivity | reflexivity].
Defined.

(** * Background rectangles *)

(** C1. For every grid, [updateBackgrounds] returns with a rectangle count
    of 1 plus the number of runs of the grid, a run being a maximal
    horizontal sequence of cells of one row that share one non-default
    color: the count is taken row by row, so that no run is split and none
    continues into the next row. *)
Theorem run_count_invariant env model this :
  grid_ok env model → palette_ok env →
  ∃ this',
    updateBackgrounds env model this = Some this'
    ∧ count (_vertices this') = 1 + Z.of_nat (grid_run_count env model).
Proof.
  intros Hg Hp.
  destruct (updateBackgrounds_is_Some env model this Hg Hp) as [this' H].
  exists this'. split; [done|]. by eapply updateBackgrounds_count.
Qed.

Lemma run_count_invariant_witness :
  grid_ok (env_of 1 4 10 20) (model_of [1; 1; 256; 2])
  ∧ palette_ok (env_of 1 4 10 20)
  ∧ ∃ this',
      updateBackgrounds (env_of 1 4 10 20) (model_of [1; 1; 256; 2])
        (new_RectangleRenderer (env_of 1 4 10 20)) = Some this'
      ∧ count (_vertices this') = 3.
Proof.
  split; [apply grid_okb_ok; reflexivity|].
  split; [apply palette_ok_env_of|].
  apply (run_count_invariant (env_of 1 4 10 20) (model_of [1; 1; 256; 2])
           (new_RectangleRenderer (env_of 1 4 10 20)));
    [apply grid_okb_ok; reflexivity | apply palette_ok_env_of].
Defined.

(** C2, at an input where it fails.  One row of twenty cells, each of
    another color than its neighbour, makes twenty runs, for the slots 1
    to 20.  The buffer starts with room for twenty rectangles; when slot 20
    is due the buffer is grown to [rows * cols * 8 = 160] floats, which it
    has already, and the eight floats written at 160 to 167 are outside
    it. *)
Theorem rectangle_write_out_of_bounds :
  ∃ this',
    updateBackgrounds (env_of 1 20 10 20) (model_of (alternating 20))
      (new_RectangleRenderer (env_of 1 20 10 20)) = Some this'
    ∧ count (_vertices this') = 21
    ∧ length (attributes (_vertices this')) = 160%nat
    ∧ slot (attributes (_vertices this')) 19
      = Some [num 180; num 0; num 10; num 20;
              Qmake 1 255; Qmake 0 255; Qmake 0 255; num 1]
    ∧ slot (attributes (_vertices this')) 20 = None.
Proof.
  eexists. split; [vm_compute; reflexivity|]. repeat split; reflexivity.
Qed.

(** The same happens on larger grids: five rows of eight cells, each of
    another color than its neighbour, make forty runs; the buffer is grown
    to [5 * 8 * 8 = 320] floats when slot 20 is due and cannot grow when
    slot 40 is. *)
Lemma rectangle_write_out_of_bounds_5x8 :
  ∃ this',
    updateBackgrounds (env_of 5 8 10 20) (model_of (alternating 40))
      (new_RectangleRenderer (env_of 5 8 10 20)) = Some this'
    ∧ count (_vertices this') = 41
    ∧ length (attributes (_vertices this')) = 320%nat
    ∧ slot (attributes (_vertices this')) 40 = None.
Proof.
  eexists. split; [vm_compute; reflexivity|]. repeat split; reflexivity.
Qed.

(** C6, at the same input.  The last cell of the row has a non-default
    color and covers the pixels 190 to 199, but no rectangle in the slots
    1 to [count - 1] covers pixel (190, 0): its rectangle was written
    outside the buffer. *)
Theorem cell_not_covered :
  ∃ this',
    updateBackgrounds (env_of 1 20 10 20) (model_of (alternating 20))
      (new_RectangleRenderer (env_of 1 20 10 20)) = Some this'
    ∧ bg_at (env_of 1 20 10 20) (model_of (alternating 20)) 0 19 = Some 2
    ∧ in_cell (env_of 1 20 10 20) 19 0 190 0 = true
    ∧ covered (_vertices this') 190 0 = false
    ∧ covered (_vertices this') 180 0 = true.
Proof.
  eexists. split; [vm_compute; reflexivity|]. repeat split; reflexivity.
Qed.

(** Scenario A: one row [DEFAULT, RED, RED] with cells of 10 by 20 gives
    the count 2 and the one rectangle at (10, 0) of 20 by 20. *)
Lemma scenario_A :
  ∃ this',
    updateBackgrounds (env_of 1 3 10 20) (model_of [DEFAULT_COLOR; 1; 1])
      (new_RectangleRenderer (env_of 1 3 10 20)) = Some this'
    ∧ count (_vertices this') = 2
    ∧ slot (attributes (_vertices this')) 1
      = Some [num 10; num 0; num 20; num 20;
              Qmake 1 255; Qmake 0 255; Qmake 0 255; num 1].
Proof.
  eexists. split; [vm_compute; reflexivity|]. split; reflexivity.
Qed.

(** With room in the buffer, the background rectangles cover exactly the
    pixels of the cells of non-default color, and no two of them share a
    pixel. *)
Theorem background_coverage env model this :
  grid_ok env model → palette_ok env →
  whole_rectangles (attributes (_vertices this)) →
  (8 ≤ length (attributes (_vertices this)))%nat →
  has_room env model (attributes (_vertices this)) →
  0 < scaledCellWidth (_dimensions env) →
  0 < scaledCellHeight (_dimensions env) →
  ∃ this',
    updateBackgrounds env model this = Some this'
    ∧ (∀ px py,
         covered (_vertices this') px py = true ↔
         ∃ cx cy, 0 ≤ cx < cols (_terminal env) ∧ 0 ≤ cy < rows (_terminal env)
                  ∧ bg_at env model cy cx ≠ Some DEFAULT_COLOR
                  ∧ in_cell env cx cy px py = true)
    ∧ (∀ k1 k2 s1 s2 px py,
         1 ≤ k1 < k2 → k2 < count (_vertices this') →
         slot (attributes (_vertices this')) k1 = Some s1 →
         slot (attributes (_vertices this')) k2 = Some s2 →
         ¬ (in_rectangle s1 px py = true ∧ in_rectangle s2 px py = true)).
Proof.
  intros Hg Hp Hw Hlen Hroom Hcw Hch.
  destruct (updateBackgrounds_stored env model this Hg Hp Hw Hlen Hroom)
    as (this' & H & Hc & _ & Hslot).
  exists this'. split; [done|]. split.
  - intros px py. rewrite covered_iff. split.
    + intros (k & s & Hk & Hs & Hin).
      destruct (stored_slot _ _ _ _ _ Hc Hslot Hk Hs) as (r & Hr & ->).
      apply list_elem_of_lookup_2 in Hr.
      destruct (grid_runs_resolve env model r Hg Hp Hr) as [c Hcol].
      apply (in_rectangle_run _ _ _ _ _ Hcol) in Hin as [Hx Hy].
      apply grid_runs_ok in Hr as (y & Hyr & (Hry & Hsx & Hex & Hd & Hf)).
      apply pixel_in_run_cells in Hx as (cx & Hcx & Hpx); [|done].
      exists cx, (run_y r). split; [lia|]. split; [lia|]. split.
      * rewrite Hry, (Hf cx) by lia. done.
      * apply in_cell_iff. split; [done|lia].
    + intros (cx & cy & Hcx & Hcy & Hbg & Hin).
      apply in_cell_iff in Hin as [Hpx Hpy].
      destruct (grid_runs_complete env model cy cx Hcy Hcx Hbg)
        as (r & Hr & Hry & Hin).
      destruct (grid_runs_resolve env model r Hg Hp Hr) as [c Hcol].
      apply list_elem_of_lookup in Hr as [i Hi].
      pose proof (lookup_lt_Some _ _ _ Hi).
      exists (1 + Z.of_nat i), (run_rectangle env r).
      split; [lia|]. split; [by apply Hslot|].
      apply (in_rectangle_run _ _ _ _ _ Hcol). split; [|by rewrite Hry].
      apply pixel_in_run_cells; [done|]. by exists cx.
  - intros k1 k2 s1 s2 px py Hk Hk2 Hs1 Hs2 [Hin1 Hin2].
    assert (Hk1' : 1 ≤ k1 < count (_vertices this')) by lia.
    assert (Hk2' : 1 ≤ k2 < count (_vertices this')) by lia.
    destruct (stored_slot _ _ _ _ _ Hc Hslot Hk1' Hs1) as (r1 & Hr1 & ->).
    destruct (stored_slot _ _ _ _ _ Hc Hslot Hk2' Hs2) as (r2 & Hr2 & ->).
    assert (Hlt : (Z.to_nat (k1 - 1) < Z.to_nat (k2 - 1))%nat) by lia.
    pose proof (StronglySorted_lookup _ _ _ _ _ _
                  (grid_runs_sorted env model) Hlt Hr1 Hr2) as Hb.
    apply list_elem_of_lookup_2 in Hr1, Hr2.
    destruct (grid_runs_resolve env model r1 Hg Hp Hr1) as [c1 Hc1].
    destruct (grid_runs_resolve env model r2 Hg Hp Hr2) as [c2 Hc2].
    apply (in_rectangle_run _ _ _ _ _ Hc1) in Hin1 as [Hx1 Hy1].
    apply (in_rectangle_run _ _ _ _ _ Hc2) in Hin2 as [Hx2 Hy2].
    destruct Hb as [Hb|[_ Hb]]; nia.
Qed.

Lemma background_coverage_witness :
  ∃ this',
    updateBackgrounds (env_of 2 3 10 20)
      (model_of [DEFAULT_COLOR; 1; 1; 2; 2; DEFAULT_COLOR])
      (new_RectangleRenderer (env_of 2 3 10 20)) = Some this'
    ∧ covered (_vertices this') 15 5 = true
    ∧ covered (_vertices this') 5 5 = false.
Proof.
  destruct (background_coverage (env_of 2 3 10 20)
              (model_of [DEFAULT_COLOR; 1; 1; 2; 2; DEFAULT_COLOR])
              (new_RectangleRenderer (env_of 2 3 10 20)))
    as (this' & H & Hcov & _);
    [apply grid_okb_ok; reflexivity | apply palette_ok_env_of | by exists 20%nat
    | simpl; lia | unfold has_room; vm_compute; discriminate | reflexivity
    | reflexivity |].
  exists this'. split; [exact H|]. injection H as <-. split; reflexivity.
Defined.

(** C7. Two calls of [updateBackgrounds] in a row on the same grid, palette
    and cell size give the same rectangle buffer: the second call returns
    the renderer the first one returned, with the same count and the same
    floats, whether or not the first call had to grow the buffer. *)
Theorem updateBackgrounds_idempotent env model this :
  grid_ok env model → palette_ok env →
  whole_rectangles (attributes (_vertices this)) →
  ∃ this1 this2,
    updateBackgrounds env model this = Some this1
    ∧ updateBackgrounds env model this1 = Some this2
    ∧ count (_vertices this2) = count (_vertices this1)
    ∧ take (Z.to_nat (count (_vertices this1) * 8)) (attributes (_vertices this2))
      = take (Z.to_nat (count (_vertices this1) * 8)) (attributes (_vertices this1))
    ∧ this2 = this1.
Proof.
  intros Hg Hp Hw.
  destruct (updateBackgrounds_is_Some env model this Hg Hp) as [this1 H].
  exists this1, this1. split; [done|].
  split; [by eapply updateBackgrounds_twice|]. done.
Qed.

Lemma updateBackgrounds_idempotent_witness :
  grid_ok (env_of 1 41 10 20) (model_of (alternating 41))
  ∧ palette_ok (env_of 1 41 10 20)
  ∧ whole_rectangles
      (attributes (_vertices (new_RectangleRenderer (env_of 1 41 10 20))))
  ∧ ∃ this1 this2,
      updateBackgrounds (env_of 1 41 10 20) (model_of (alternating 41))
        (new_RectangleRenderer (env_of 1 41 10 20)) = Some this1
      ∧ updateBackgrounds (env_of 1 41 10 20) (model_of (alternating 41)) this1
        = Some this2
      ∧ count (_vertices this2) = count (_vertices this1)
      ∧ take (Z.to_nat (count (_vertices this1) * 8)) (attributes (_vertices this2))
        = take (Z.to_nat (count (_vertices this1) * 8)) (attributes (_vertices this1))
      ∧ this2 = this1.
Proof.
  split; [apply grid_okb_ok; reflexivity|].
  split; [apply palette_ok_env_of|].
  split; [by exists 20%nat|].
  apply (updateBackgrounds_idempotent (env_of 1 41 10 20)
           (model_of (alternating 41))
           (new_RectangleRenderer (env_of 1 41 10 20)));
    [apply grid_okb_ok; reflexivity | apply palette_ok_env_of | by exists 20%nat].
Defined.

(** C8. When every cell of the grid holds a color code (default, inverted
    default or a palette index in 0-255) and the palette is fully
    populated, [updateBackgrounds] returns: no color is missing where
    [rgba] is read.  The inverted default resolves to the foreground color,
    every other non-default code to its palette entry; the default code has
    no color, so that the call returning shows that no rectangle is
    written for it. *)
Theorem color_resolution_total env model this :
  grid_ok env model → palette_ok env →
  (∃ this', updateBackgrounds env model this = Some this')
  ∧ _updateRectangle_color env (Some INVERTED_DEFAULT_COLOR)
    = Some (foreground (_colorManager env))
  ∧ (∀ c, valid_code c = true → c ≠ DEFAULT_COLOR →
          c ≠ INVERTED_DEFAULT_COLOR →
          ∃ col, ansi (_colorManager env) !! Z.to_nat c = Some col
                 ∧ _updateRectangle_color env (Some c) = Some col)
  ∧ _updateRectangle_color env (Some DEFAULT_COLOR) = None
  ∧ (∀ r, r ∈ grid_runs env model →
          run_bg r ≠ Some DEFAULT_COLOR
          ∧ is_Some (_updateRectangle_color env (run_bg r))).
Proof.
  intros Hg Hp. split; [by apply updateBackgrounds_is_Some|].
  split; [apply resolve_inverted|].
  split; [intros; by apply resolve_palette|].
  split; [apply resolve_default|].
  intros r Hr. split; [|by eapply grid_runs_resolve].
  apply grid_runs_ok in Hr as (y & _ & Hok). apply Hok.
Qed.

Lemma color_resolution_total_witness :
  grid_ok (env_of 1 4 10 20) (model_of [1; 257; 256; 2])
  ∧ palette_ok (env_of 1 4 10 20)
  ∧ ∃ this',
      updateBackgrounds (env_of 1 4 10 20) (model_of [1; 257; 256; 2])
        (new_RectangleRenderer (env_of 1 4 10 20)) = Some this'.
Proof.
  split; [apply grid_okb_ok; reflexivity|].
  split; [apply palette_ok_env_of|].
  apply (color_resolution_total (env_of 1 4 10 20) (model_of [1; 257; 256; 2])
           (new_RectangleRenderer (env_of 1 4 10 20)));
    [apply grid_okb_ok; reflexivity | apply palette_ok_env_of].
Defined.

(** The constructor caches the background color of the theme. *)
Lemma _bgFloat_new env :
  _bgFloat (new_RectangleRenderer env)
  = _colorToFloat32Array (background (_colorManager env)).
Proof. reflexivity. Qed.

(** C9. Slot 0 of the rectangle buffer holds the viewport rectangle: after
    [onResize] it is the rectangle at the origin of [cols * cellWidth] by
    [rows * cellHeight] in the cached background color, after
    [onThemeChanged] the same rectangle in the background color of the new
    theme, which is then the cached one; and [updateBackgrounds] returns
    with the eight floats of slot 0, and the cached color, as they were. *)
Theorem viewport_rectangle_slot0 env model this :
  grid_ok env model → palette_ok env →
  whole_rectangles (attributes (_vertices this)) →
  (8 ≤ length (attributes (_vertices this)))%nat →
  take 8 (attributes (_vertices (onResize env this)))
  = viewport_rectangle env (_bgFloat this)
  ∧ take 8 (attributes (_vertices (onThemeChanged env this)))
    = viewport_rectangle env
        (_colorToFloat32Array (background (_colorManager env)))
  ∧ _bgFloat (onThemeChanged env this)
    = _colorToFloat32Array (background (_colorManager env))
  ∧ ∃ this',
      updateBackgrounds env model this = Some this'
      ∧ take 8 (attributes (_vertices this'))
        = take 8 (attributes (_vertices this))
      ∧ _bgFloat this' = _bgFloat this.
Proof.
  intros Hg Hp Hw Hlen.
  split; [by apply take_8_addRectangleFloat|].
  split; [by apply take_8_addRectangleFloat|].
  split; [done|].
  destruct (updateBackgrounds_is_Some env model this Hg Hp) as [this' H].
  exists this'. split; [done|].
  rewrite updateBackgrounds_runs in H.
  destruct (write_runs env _ 1 (_vertices this)) as [p|] eqn:H1; [|done].
  simpl in H. injection H as <-. simpl. split; [|done].
  by eapply (write_runs_slot0 env _ 1).
Qed.

Lemma viewport_rectangle_slot0_witness :
  grid_ok (env_of 1 41 10 20) (model_of (alternating 41))
  ∧ palette_ok (env_of 1 41 10 20)
  ∧ whole_rectangles
      (attributes (_vertices (onResize (env_of 1 41 10 20)
                                (new_RectangleRenderer (env_of 1 41 10 20)))))
  ∧ (8 ≤ length
           (attributes (_vertices (onResize (env_of 1 41 10 20)
                                     (new_RectangleRenderer (env_of 1 41 10 20))))))%nat
  ∧ ∃ this',
      updateBackgrounds (env_of 1 41 10 20) (model_of (alternating 41))
        (onResize (env_of 1 41 10 20)
           (new_RectangleRenderer (env_of 1 41 10 20))) = Some this'
      ∧ take 8 (attributes (_vertices this'))
        = [num 0; num 0; num 410; num 20;
           Qmake 0 255; Qmake 0 255; Qmake 0 255; Qmake 255 255].
Proof.
  split; [apply grid_okb_ok; reflexivity|].
  split; [apply palette_ok_env_of|].
  split; [by exists 20%nat|].
  split; [simpl; lia|].
  destruct (viewport_rectangle_slot0 (env_of 1 41 10 20)
              (model_of (alternating 41))
              (onResize (env_of 1 41 10 20)
                 (new_RectangleRenderer (env_of 1 41 10 20))))
    as (_ & _ & _ & this' & H & Hslot & _);
    [apply grid_okb_ok; reflexivity | apply palette_ok_env_of
    | by exists 20%nat | simpl; lia |].
  exists this'. split; [exact H|]. rewrite Hslot. reflexivity.
Defined.

(** * Scenarios of the specification *)

(** Scenario B: one row [RED, RED, DEFAULT, BLUE] is two runs. *)
Lemma scenario_B :
  ∃ this',
    updateBackgrounds (env_of 1 4 10 20) (model_of [1; 1; DEFAULT_COLOR; 4])
      (new_RectangleRenderer (env_of 1 4 10 20)) = Some this'
    ∧ count (_vertices this') = 3
    ∧ slot (attributes (_vertices this')) 1
      = Some [num 0; num 0; num 20; num 20;
              Qmake 1 255; Qmake 0 255; Qmake 0 255; num 1]
    ∧ slot (attributes (_vertices this')) 2
      = Some [num 30; num 0; num 10; num 20;
              Qmake 4 255; Qmake 0 255; Qmake 0 255; num 1].
Proof.
  eexists. split; [vm_compute; reflexivity|]. repeat split; reflexivity.
Qed.

(** Runs are counted row by row: two rows of one color are two runs, and
    two neighbours of different colors are two runs. *)
Lemma grid_run_count_rows :
  grid_run_count (env_of 2 3 10 20) (model_of [1; 1; 1; 1; 1; 1]) = 2%nat
  ∧ grid_run_count (env_of 1 2 10 20) (model_of [1; 2]) = 2%nat
  ∧ grid_run_count (env_of 1 3 10 20) (model_of [INVERTED_DEFAULT_COLOR; DEFAULT_COLOR; 7])
    = 2%nat.
Proof. repeat split; reflexivity. Qed.

(** Scenario C: a selection on the single row 2, from column 1 to 4. *)
Lemma scenario_C :
  (λ this, outlineIndices (_selectionVertices this))
    <$> updateSelection (env_of 24 80 10 20) selection_single_row false
          (new_RectangleRenderer (env_of 24 80 10 20))
  = Some outline_single_row.
Proof. reflexivity. Qed.

(** Scenario D: two rows, the start column 5 right of the end column 2. *)
Lemma scenario_D :
  (λ this, outlineIndices (_selectionVertices this))
    <$> updateSelection (env_of 24 80 10 20)
          {| hasSelection := true;
             viewportStartRow := 3; viewportEndRow := 4;
             viewportCappedStartRow := 3; viewportCappedEndRow := 4;
             startCol := 5; endCol := 2 |} false
          (new_RectangleRenderer (env_of 24 80 10 20))
  = Some outline_two_rectangles.
Proof. reflexivity. Qed.

(** Scenario E: four rows, two of them in the middle. *)
Lemma scenario_E :
  (λ this, outlineIndices (_selectionVertices this))
    <$> updateSelection (env_of 24 80 10 20)
          {| hasSelection := true;
             viewportStartRow := 3; viewportEndRow := 6;
             viewportCappedStartRow := 3; viewportCappedEndRow := 6;
             startCol := 5; endCol := 2 |} false
          (new_RectangleRenderer (env_of 24 80 10 20))
  = Some outline_staircase.
Proof. reflexivity. Qed.

(** * Further properties of the code *)

(** ** Colors: [_colorToFloat32Array] and the channels of [_updateRectangle] *)

Lemma land_255 z : Z.land z 255 = z mod 256.
Proof. change 255 with (Z.ones 8). by rewrite Z.land_ones. Qed.

Lemma toInt32_congruent z : ∃ k, toInt32 z = z + k * 2 ^ 32.
Proof.
  unfold toInt32. exists (- ((z + 2 ^ 31) / 2 ^ 32)).
  pose proof (Z.div_mod (z + 2 ^ 31) (2 ^ 32) ltac:(lia)). lia.
Qed.

(** The byte at bit [8 * i] of [rgba], whatever the sign [>>] sees. *)
Lemma channel_byte c i :
  0 ≤ i ≤ 3 →
  channel c (8 * i) = Qmake ((rgba c / 2 ^ (8 * i)) mod 256) 255.
Proof.
  intros Hi. unfold channel. f_equal.
  rewrite land_255, Z.shiftr_div_pow2 by lia.
  destruct (toInt32_congruent (rgba c)) as [k ->].
  replace (2 ^ 32) with (2 ^ (8 * (3 - i)) * 256 * 2 ^ (8 * i)).
  - rewrite Z.mul_assoc, Z.div_add by lia.
    rewrite Z.mul_assoc. apply Z_mod_plus_full.
  - rewrite <- Z.mul_assoc, (Z.mul_comm 256), Z.mul_assoc, <- Z.pow_add_r by lia.
    change 256 with (2 ^ 8). rewrite <- Z.pow_add_r by lia. f_equal. lia.
Qed.

Lemma channel_bytes c :
  channel c 24 = Qmake ((rgba c / 2 ^ 24) mod 256) 255
  ∧ channel c 16 = Qmake ((rgba c / 2 ^ 16) mod 256) 255
  ∧ channel c 8 = Qmake ((rgba c / 2 ^ 8) mod 256) 255
  ∧ channel c 0 = Qmake (rgba c mod 256) 255.
Proof.
  split; [exact (channel_byte c 3 ltac:(lia))|].
  split; [exact (channel_byte c 2 ltac:(lia))|].
  split; [exact (channel_byte c 1 ltac:(lia))|].
  pose proof (channel_byte c 0 ltac:(lia)) as H.
  change (8 * 0) with 0 in H. change (2 ^ 0) with 1 in H.
  by rewrite Z.div_1_r in H.
Qed.

Lemma byte_of_rgba r g b a :
  0 ≤ r < 256 → 0 ≤ g < 256 → 0 ≤ b < 256 → 0 ≤ a < 256 →
  let x := r * 2 ^ 24 + g * 2 ^ 16 + b * 2 ^ 8 + a in
  (x / 2 ^ 24) mod 256 = r ∧ (x / 2 ^ 16) mod 256 = g
  ∧ (x / 2 ^ 8) mod 256 = b ∧ x mod 256 = a.
Proof.
  intros Hr Hg Hb Ha x. subst x.
  change (2 ^ 24) with 16777216. change (2 ^ 16) with 65536.
  change (2 ^ 8) with 256.
  repeat split; Z.div_mod_to_equations; lia.
Qed.

(** X1. [_colorToFloat32Array] decodes a color packed as
    [r * 2^24 + g * 2^16 + b * 2^8 + a] into its four bytes over 255, also
    when the red byte is 128 or more and [rgba >> 24] is negative. *)
Theorem _colorToFloat32Array_of_bytes r g b a :
  0 ≤ r < 256 → 0 ≤ g < 256 → 0 ≤ b < 256 → 0 ≤ a < 256 →
  _colorToFloat32Array {| rgba := r * 2 ^ 24 + g * 2 ^ 16 + b * 2 ^ 8 + a |}
  = (Qmake r 255, Qmake g 255, Qmake b 255, Qmake a 255).
Proof.
  intros Hr Hg Hb Ha. unfold _colorToFloat32Array.
  destruct (byte_of_rgba r g b a Hr Hg Hb Ha) as (E3 & E2 & E1 & E0).
  destruct (channel_bytes {| rgba := r * 2 ^ 24 + g * 2 ^ 16 + b * 2 ^ 8 + a |})
    as (-> & -> & -> & ->).
  cbn [rgba]. by rewrite E3, E2, E1, E0.
Qed.

Lemma _colorToFloat32Array_of_bytes_witness :
  0 ≤ 255 < 256 ∧ 0 ≤ 128 < 256 ∧ 0 ≤ 0 < 256 ∧ 0 ≤ 255 < 256
  ∧ _colorToFloat32Array {| rgba := 4286578943 |}
    = (Qmake 255 255, Qmake 128 255, Qmake 0 255, Qmake 255 255).
Proof.
  repeat (split; [lia|]).
  apply (_colorToFloat32Array_of_bytes 255 128 0 255); lia.
Defined.

(** X2. Whatever integer [rgba] is, every channel computed from it, by
    [_colorToFloat32Array] and by [_updateRectangle], is a number of 255ths
    between 0 and 1. *)
Theorem channel_unit_interval c shift :
  ∃ k, 0 ≤ k ≤ 255 ∧ channel c shift = Qmake k 255
       ∧ (0 <= channel c shift)%Q ∧ (channel c shift <= 1)%Q.
Proof.
  unfold channel. rewrite land_255.
  pose proof (Z.mod_pos_bound (Z.shiftr (toInt32 (rgba c)) shift) 256 ltac:(lia)).
  eexists. split; [|split; [reflexivity|]]; [lia|].
  unfold Qle. simpl. lia.
Qed.

(** ** The rectangle writers *)

Lemma _addRectangleFloat_eq a offset x1 y1 w h c0 c1 c2 c3 :
  _addRectangleFloat a offset x1 y1 w h (c0, c1, c2, c3)
  = _addRectangle a offset x1 y1 w h c0 c1 c2 c3.
Proof. reflexivity. Qed.

Lemma length__addRectangle a offset x1 y1 w h r g b al :
  length (_addRectangle a offset x1 y1 w h r g b al) = length a.
Proof. unfold _addRectangle. by rewrite !length_array_store. Qed.

Lemma slot_ext (a1 a2 : list Q) j :
  (∀ i, (Z.to_nat (j * 8) ≤ i < Z.to_nat (j * 8) + 8)%nat → a1 !! i = a2 !! i) →
  slot a1 j = slot a2 j.
Proof.
  intros H. unfold slot. destruct (j <? 0); [done|].
  assert (E : take 8 (drop (Z.to_nat (j * 8)) a1)
              = take 8 (drop (Z.to_nat (j * 8)) a2)).
  { apply list_eq. intros i. destruct (decide (i < 8)%nat).
    - rewrite !lookup_take_lt, !lookup_drop by done. apply H. lia.
    - by rewrite !lookup_take_ge by lia. }
  cbv zeta. by rewrite E.
Qed.

(** X3. [_addRectangle] keeps the length of the array; at an offset beyond
    its end it changes nothing; and when slot [k] is inside the array it
    stores its eight arguments there, in order, and leaves every other slot
    as it was. *)
Theorem _addRectangle_slot a k x1 y1 w h r g b al :
  0 ≤ k → (k + 1) * 8 ≤ Z.of_nat (length a) →
  slot (_addRectangle a (k * 8) x1 y1 w h r g b al) k
  = Some [x1; y1; w; h; r; g; b; al]
  ∧ (∀ j, j ≠ k →
       slot (_addRectangle a (k * 8) x1 y1 w h r g b al) j = slot a j)
  ∧ length (_addRectangle a (k * 8) x1 y1 w h r g b al) = length a
  ∧ (∀ a' offset, Z.of_nat (length a') ≤ offset →
       _addRectangle a' offset x1 y1 w h r g b al = a').
Proof.
  intros Hk Hlen. rewrite _addRectangle_inserts by lia.
  split; [|split; [|split]].
  - unfold slot. destruct (Z.ltb_spec k 0); [lia|].
    rewrite list_inserts_in by (simpl; lia).
    rewrite drop_app_length' by (rewrite length_take; lia).
    cbv zeta. by rewrite take_app_length' by done.
  - intros j Hj. destruct (decide (j < 0)).
    { unfold slot. by destruct (Z.ltb_spec j 0); [|lia]. }
    apply slot_ext. intros i Hi.
    destruct (decide (j < k)).
    + apply list_lookup_inserts_lt. lia.
    + apply list_lookup_inserts_ge. simpl. lia.
  - apply length_inserts.
  - intros a' offset Ho. rewrite _addRectangle_inserts by lia.
    apply list_eq. intros i. destruct (decide (i < length a')%nat).
    + apply list_lookup_inserts_lt. lia.
    + rewrite !lookup_ge_None_2; [done|lia|rewrite length_inserts; lia].
Qed.

Lemma _addRectangle_slot_witness :
  0 ≤ 1 ∧ (1 + 1) * 8 ≤ Z.of_nat (length (replicate 24 (num 0)))
  ∧ slot (_addRectangle (replicate 24 (num 0)) (1 * 8)
            (num 10) (num 20) (num 30) (num 20)
            (num 1) (num 0) (num 0) (num 1)) 1
    = Some [num 10; num 20; num 30; num 20; num 1; num 0; num 0; num 1].
Proof.
  split; [lia|]. split; [simpl; lia|].
  apply (_addRectangle_slot (replicate 24 (num 0)) 1); [lia|simpl; lia].
Defined.

(** ** The viewport rectangle: [onResize] and [onThemeChanged] *)

Lemma _addRectangleFloat_inserts a x1 y1 w h color :
  _addRectangleFloat a 0 x1 y1 w h color
  = list_inserts 0 [x1; y1; w; h; color.1.1.1; color.1.1.2; color.1.2; color.2] a.
Proof.
  destruct color as [[[c0 c1] c2] c3]. rewrite _addRectangleFloat_eq.
  by rewrite _addRectangle_inserts.
Qed.

Lemma _updateViewportRectangle_drop env this :
  drop 8 (attributes (_vertices (_updateViewportRectangle env this)))
  = drop 8 (attributes (_vertices this)).
Proof.
  unfold _updateViewportRectangle.
  cbn [_vertices with_vertices attributes with_attributes].
  rewrite _addRectangleFloat_inserts.
  apply list_eq. intros i. rewrite !lookup_drop.
  apply list_lookup_inserts_ge. simpl. lia.
Qed.

Lemma _updateViewportRectangle_idemp env this :
  _updateViewportRectangle env (_updateViewportRectangle env this)
  = _updateViewportRectangle env this.
Proof.
  unfold _updateViewportRectangle.
  cbn [_vertices with_vertices attributes with_attributes count
       _selectionVertices _bgFloat _selectionFloat].
  rewrite !_addRectangleFloat_inserts. by rewrite list_inserts_idemp.
Qed.

(** X4. [onResize] rewrites slot 0 and nothing else: the count, the length
    of the buffer, every float from index 8 on, the selection arrays and
    the cached colors are as before; and a second [onResize] changes
    nothing more. *)
Theorem onResize_frame env this :
  count (_vertices (onResize env this)) = count (_vertices this)
  ∧ length (attributes (_vertices (onResize env this)))
    = length (attributes (_vertices this))
  ∧ drop 8 (attributes (_vertices (onResize env this)))
    = drop 8 (attributes (_vertices this))
  ∧ _selectionVertices (onResize env this) = _selectionVertices this
  ∧ _bgFloat (onResize env this) = _bgFloat this
  ∧ _selectionFloat (onResize env this) = _selectionFloat this
  ∧ onResize env (onResize env this) = onResize env this.
Proof.
  split; [done|]. split.
  { unfold onResize, _updateViewportRectangle.
    cbn [_vertices with_vertices attributes with_attributes].
    apply length__addRectangleFloat. }
  split; [apply _updateViewportRectangle_drop|]. repeat split.
  apply _updateViewportRectangle_idemp.
Qed.

(** X5. [onThemeChanged] caches the colors of the theme and draws the
    viewport rectangle with the new background; calling [onResize] or
    [onThemeChanged] again right after it, with the same collaborators,
    changes nothing. *)
Theorem onThemeChanged_settles env this :
  _bgFloat (onThemeChanged env this)
  = _colorToFloat32Array (background (_colorManager env))
  ∧ _selectionFloat (onThemeChanged env this)
    = _colorToFloat32Array (selection (_colorManager env))
  ∧ onResize env (onThemeChanged env this) = onThemeChanged env this
  ∧ onThemeChanged env (onThemeChanged env this) = onThemeChanged env this
  ∧ drop 8 (attributes (_vertices (onThemeChanged env this)))
    = drop 8 (attributes (_vertices this)).
Proof.
  split; [done|]. split; [done|].
  split; [apply _updateViewportRectangle_idemp|].
  split; [|exact (_updateViewportRectangle_drop env (_updateCachedColors env this))].
  unfold onThemeChanged at 1 3.
  transitivity (_updateViewportRectangle env
                  (_updateViewportRectangle env (_updateCachedColors env this)));
    [done|apply _updateViewportRectangle_idemp].
Qed.

(** ** [updateBackgrounds]: exceptions, empty grids, bounds *)

Lemma write_runs_None env rs : ∀ k v,
  write_runs env rs k v = None →
  ∃ r, r ∈ rs ∧ _updateRectangle_color env (run_bg r) = None.
Proof.
  induction rs as [|r rs IH]; intros k v H; [done|].
  cbn [write_runs] in H.
  destruct (_updateRectangle_color env (run_bg r)) as [c|] eqn:Hc.
  - unfold write_run in H.
    rewrite (_updateRectangle_eq _ _ _ _ c Hc) in H. cbn [mbind option_bind] in H.
    destruct (IH _ _ H) as (r' & Hr' & Hn). exists r'. split; [by right|done].
  - exists r. split; [by left|done].
Qed.

(** X6. [updateBackgrounds] throws exactly when some cell of the grid has a
    background that is not the default code and has no color: a code that
    is neither the inverted default nor an index the palette holds, or a
    cell that [model.cells] is too short to hold. *)
Theorem updateBackgrounds_throws_iff env model this :
  updateBackgrounds env model this = None ↔
  ∃ y x, 0 ≤ y < rows (_terminal env) ∧ 0 ≤ x < cols (_terminal env)
         ∧ bg_at env model y x ≠ Some DEFAULT_COLOR
         ∧ _updateRectangle_color env (bg_at env model y x) = None.
Proof.
  rewrite updateBackgrounds_runs. split.
  - intros H.
    destruct (write_runs env (grid_runs env model) 1 (_vertices this))
      as [p|] eqn:Hw; [done|].
    apply write_runs_None in Hw as (r & Hr & Hn).
    apply grid_runs_ok in Hr as (y & Hy & (_ & Hsx & Hex & Hd & Hf)).
    exists y, (run_startX r). rewrite (Hf (run_startX r)) by lia.
    repeat split; (done || lia).
  - intros (y & x & Hy & Hx & Hd & Hn).
    destruct (grid_runs_complete env model y x Hy Hx Hd) as (r & Hr & Hry & Hin).
    destruct (write_runs env (grid_runs env model) 1 (_vertices this))
      as [p|] eqn:Hw; [|done].
    destruct (write_runs_resolved _ _ _ _ _ Hw r Hr) as [c Hc].
    apply grid_runs_ok in Hr as (y' & _ & (Hy' & _ & _ & _ & Hf)).
    rewrite <- (Hf x Hin) in Hc. replace y' with y in Hc by congruence.
    congruence.
Qed.

(** X7. On a grid with no colored cell (all cells of the default code, or
    no rows, or no columns) [updateBackgrounds] writes nothing: it sets the
    count to 1 and leaves the buffer, and the rectangles of earlier calls
    in it, as they are. *)
Theorem updateBackgrounds_blank env model this :
  (∀ y x, 0 ≤ y < rows (_terminal env) → 0 ≤ x < cols (_terminal env) →
          bg_at env model y x = Some DEFAULT_COLOR) →
  updateBackgrounds env model this
  = Some (with_vertices this (with_count (_vertices this) 1)).
Proof.
  intros Hblank. rewrite updateBackgrounds_runs.
  destruct (grid_runs env model) as [|r rs] eqn:E; [done|].
  assert (Hr : r ∈ grid_runs env model) by (rewrite E; by left).
  apply grid_runs_ok in Hr as (y & Hy & (_ & Hsx & Hex & Hd & Hf)).
  specialize (Hblank y (run_startX r) Hy ltac:(lia)).
  rewrite (Hf (run_startX r)) in Hblank by lia. done.
Qed.

Lemma updateBackgrounds_blank_witness :
  (∀ y x, 0 ≤ y < rows (_terminal env_2x3) → 0 ≤ x < cols (_terminal env_2x3) →
          bg_at env_2x3 (model_of (replicate 6 DEFAULT_COLOR)) y x
          = Some DEFAULT_COLOR)
  ∧ updateBackgrounds env_2x3 (model_of (replicate 6 DEFAULT_COLOR)) renderer_used
    = Some (with_vertices renderer_used (with_count (_vertices renderer_used) 1)).
Proof.
  assert (H : ∀ y x, 0 ≤ y < rows (_terminal env_2x3) →
                     0 ≤ x < cols (_terminal env_2x3) →
                     bg_at env_2x3 (model_of (replicate 6 DEFAULT_COLOR)) y x
                     = Some DEFAULT_COLOR).
  { intros y x Hy Hx. change (0 ≤ y < 2) in Hy. change (0 ≤ x < 3) in Hx.
    assert (y = 0 ∨ y = 1) as [->| ->] by lia;
      assert (x = 0 ∨ x = 1 ∨ x = 2) as [->|[->| ->]] by lia; reflexivity. }
  split; [exact H|].
  apply (updateBackgrounds_blank env_2x3 (model_of (replicate 6 DEFAULT_COLOR))
           renderer_used H).
Defined.

Lemma row_run_count_le f c : (row_run_count f c ≤ Z.to_nat c)%nat.
Proof.
  unfold row_run_count.
  etransitivity; [apply length_filter|]. by rewrite length_seqZ.
Qed.

Lemma sum_list_fmap_le {A} (g : A → nat) (l : list A) b :
  (∀ x, g x ≤ b)%nat → (sum_list (g <$> l) ≤ length l * b)%nat.
Proof.
  intros H. induction l as [|x l IH]; csimpl; [lia|].
  specialize (H x). lia.
Qed.

(** X8. When [updateBackgrounds] returns, the count is at least 1 and at
    most [rows * cols + 1]: the viewport rectangle and at most one
    rectangle per cell. *)
Theorem updateBackgrounds_count_bounds env model this this' :
  updateBackgrounds env model this = Some this' →
  1 ≤ count (_vertices this')
  ≤ 1 + Z.max 0 (rows (_terminal env)) * Z.max 0 (cols (_terminal env)).
Proof.
  intros H. rewrite (updateBackgrounds_count _ _ _ _ H).
  unfold grid_run_count.
  pose proof (sum_list_fmap_le
                (λ y, row_run_count (bg_at env model y) (cols (_terminal env)))
                (seqZ 0 (rows (_terminal env)))
                (Z.to_nat (cols (_terminal env)))
                (λ y, row_run_count_le _ _)) as Hle.
  rewrite length_seqZ in Hle. nia.
Qed.

Lemma updateBackgrounds_count_bounds_witness :
  ∃ this',
    updateBackgrounds env_2x3 model_2x3 (new_RectangleRenderer env_2x3)
    = Some this'
    ∧ 1 ≤ count (_vertices this') ≤ 1 + Z.max 0 2 * Z.max 0 3.
Proof.
  destruct (updateBackgrounds env_2x3 model_2x3 (new_RectangleRenderer env_2x3))
    as [t|] eqn:H; [|vm_compute in H; discriminate].
  exists t. split; [reflexivity|].
  apply (updateBackgrounds_count_bounds env_2x3 model_2x3
           (new_RectangleRenderer env_2x3) t H).
Defined.

(** ** The stored rectangles *)

Lemma left_of_succ f x : 0 ≤ x → left_of f (x + 1) = f x.
Proof.
  intros Hx. unfold left_of. destruct (Z.eqb_spec (x + 1) 0); [lia|].
  f_equal. lia.
Qed.

Lemma scan_out_maximal f y n : ∀ x csx cbg,
  0 ≤ x → cbg = left_of f x →
  (cbg ≠ Some DEFAULT_COLOR → csx = 0 ∨ f (csx - 1) ≠ cbg) →
  Forall (run_maximal f (x + Z.of_nat n))
    (scan_out f y n x csx cbg (x + Z.of_nat n)).
Proof.
  induction n as [|n IH]; intros x csx cbg Hx Hleft Hopen.
  - rewrite scan_out_O, Z.add_0_r. unfold flush.
    case_bool_decide as D; [constructor|].
    constructor; [|constructor]. split; simpl; [by apply Hopen|by left].
  - rewrite scan_out_S.
    replace (x + Z.of_nat (S n)) with (x + 1 + Z.of_nat n) by lia.
    case_bool_decide as E.
    + apply IH; [lia| |done]. by rewrite left_of_succ.
    + apply Forall_app. split.
      * unfold flush. case_bool_decide as D; [constructor|].
        constructor; [|constructor]. split; simpl; [by apply Hopen|by right].
      * apply IH; [lia|by rewrite left_of_succ|]. intros _.
        unfold left_of in Hleft. destruct (Z.eqb_spec x 0); [by left|].
        right. congruence.
Qed.

Lemma row_runs_maximal f y c : Forall (run_maximal f c) (row_runs f y c).
Proof.
  rewrite row_runs_scan_out. destruct (Z.le_gt_cases 0 c).
  - pose proof (scan_out_maximal f y (Z.to_nat c) 0 (-1) (Some DEFAULT_COLOR)
                  ltac:(lia) eq_refl ltac:(done)) as Hm.
    by rewrite Z.add_0_l, Z2Nat.id in Hm by lia.
  - replace (Z.to_nat c) with O by lia. rewrite scan_out_O. constructor.
Qed.

Lemma rows_runs_maximal env model n : ∀ y0 r,
  r ∈ rows_runs env model n y0 →
  run_maximal (bg_at env model (run_y r)) (cols (_terminal env)) r.
Proof.
  induction n as [|n IH]; intros y0 r Hr; [by apply elem_of_nil in Hr|].
  cbn [rows_runs] in Hr. apply elem_of_app in Hr as [Hr|Hr]; [|eauto].
  pose proof (proj1 (Forall_forall _ _)
                (row_runs_ok (bg_at env model y0) y0 (cols (_terminal env)))
                _ Hr) as (-> & _).
  by apply (proj1 (Forall_forall _ _)
              (row_runs_maximal (bg_at env model y0) y0 (cols (_terminal env)))).
Qed.

(** X9. When the buffer has room, every slot from 1 to [count - 1] holds
    the rectangle of a run: a row [y] of the grid and columns [sx, ex)
    inside it, not empty, whose cells all have one non-default color; the
    rectangle is at [(sx * w, y * h)], [(ex - sx) * w] wide and one cell
    high, in the color the code resolves for these cells, with alpha 1; and
    the run cannot be extended, the cells next to it on either side having
    another color. *)
Theorem stored_rectangles_are_runs env model this :
  grid_ok env model → palette_ok env →
  whole_rectangles (attributes (_vertices this)) →
  (8 ≤ length (attributes (_vertices this)))%nat →
  has_room env model (attributes (_vertices this)) →
  ∃ this',
    updateBackgrounds env model this = Some this'
    ∧ ∀ k, 1 ≤ k < count (_vertices this') →
        ∃ y sx ex c,
          0 ≤ y < rows (_terminal env)
          ∧ 0 ≤ sx < ex ∧ ex ≤ cols (_terminal env)
          ∧ slot (attributes (_vertices this')) k
            = Some [ num (sx * scaledCellWidth (_dimensions env));
                     num (y * scaledCellHeight (_dimensions env));
                     num ((ex - sx) * scaledCellWidth (_dimensions env));
                     num (scaledCellHeight (_dimensions env));
                     channel c 24; channel c 16; channel c 8; num 1 ]
          ∧ (∀ x, sx ≤ x < ex →
               bg_at env model y x = bg_at env model y sx
               ∧ bg_at env model y x ≠ Some DEFAULT_COLOR
               ∧ _updateRectangle_color env (bg_at env model y x) = Some c)
          ∧ (sx = 0 ∨ bg_at env model y (sx - 1) ≠ bg_at env model y sx)
          ∧ (ex = cols (_terminal env)
             ∨ bg_at env model y ex ≠ bg_at env model y sx).
Proof.
  intros Hg Hp Hw Hlen Hroom.
  destruct (updateBackgrounds_stored env model this Hg Hp Hw Hlen Hroom)
    as (this' & H & Hc & _ & Hslot).
  exists this'. split; [done|]. intros k Hk.
  destruct (lookup_lt_is_Some_2 (grid_runs env model) (Z.to_nat (k - 1)))
    as [r Hr]; [lia|].
  pose proof (Hslot _ _ Hr) as Hs.
  replace (1 + Z.of_nat (Z.to_nat (k - 1))) with k in Hs by lia.
  apply list_elem_of_lookup_2 in Hr.
  destruct (grid_runs_resolve env model r Hg Hp Hr) as [c Hcol].
  pose proof (rows_runs_maximal _ _ _ _ _ Hr) as [Hm1 Hm2].
  apply grid_runs_ok in Hr as (y & Hy & (Hry & Hsx & Hex & Hd & Hf)).
  rewrite Hry in Hm1, Hm2.
  assert (Hs0 : bg_at env model y (run_startX r) = run_bg r) by (apply Hf; lia).
  exists y, (run_startX r), (run_endX r), c.
  split; [done|]. split; [done|]. split; [done|]. split.
  { rewrite Hs. unfold run_rectangle. rewrite Hcol. unfold rectangle.
    by rewrite Hry. }
  split; [|by rewrite Hs0].
  intros x Hx. rewrite (Hf x Hx), Hs0. done.
Qed.

Lemma stored_rectangles_are_runs_witness :
  grid_ok env_2x3 model_2x3 ∧ palette_ok env_2x3
  ∧ whole_rectangles (attributes (_vertices (new_RectangleRenderer env_2x3)))
  ∧ (8 ≤ length (attributes (_vertices (new_RectangleRenderer env_2x3))))%nat
  ∧ has_room env_2x3 model_2x3
      (attributes (_vertices (new_RectangleRenderer env_2x3)))
  ∧ ∃ this',
      updateBackgrounds env_2x3 model_2x3 (new_RectangleRenderer env_2x3)
      = Some this'
      ∧ ∃ y sx ex c,
          slot (attributes (_vertices this')) 2
          = Some [ num (sx * 10); num (y * 20); num ((ex - sx) * 10); num 20;
                   channel c 24; channel c 16; channel c 8; num 1 ].
Proof.
  split; [apply grid_okb_ok; reflexivity|].
  split; [exact (palette_ok_env_of 2 3 10 20)|].
  split; [by exists 20%nat|].
  split; [simpl; lia|].
  split; [unfold has_room; vm_compute; discriminate|].
  destruct (stored_rectangles_are_runs env_2x3 model_2x3
              (new_RectangleRenderer env_2x3))
    as (this' & H & Hk);
    [apply grid_okb_ok; reflexivity | exact (palette_ok_env_of 2 3 10 20)
    | by exists 20%nat | simpl; lia
    | unfold has_room; vm_compute; discriminate |].
  exists this'. split; [exact H|].
  destruct (Hk 2) as (y & sx & ex & c & _ & _ & _ & Hs & _).
  { injection H as <-. simpl. lia. }
  exists y, sx, ex, c. exact Hs.
Defined.

(** X10. When the buffer has room and the cells have a positive size, the
    background rectangles are stored in the order the scan finds them:
    row by row from the top, and from left to right within a row. *)
Theorem stored_rectangles_row_major env model this :
  grid_ok env model → palette_ok env →
  whole_rectangles (attributes (_vertices this)) →
  (8 ≤ length (attributes (_vertices this)))%nat →
  has_room env model (attributes (_vertices this)) →
  0 < scaledCellWidth (_dimensions env) →
  0 < scaledCellHeight (_dimensions env) →
  ∃ this',
    updateBackgrounds env model this = Some this'
    ∧ ∀ k1 k2 s1 s2,
        1 ≤ k1 < k2 → k2 < count (_vertices this') →
        slot (attributes (_vertices this')) k1 = Some s1 →
        slot (attributes (_vertices this')) k2 = Some s2 →
        rectangle_before s1 s2.
Proof.
  intros Hg Hp Hw Hlen Hroom Hcw Hch.
  destruct (updateBackgrounds_stored env model this Hg Hp Hw Hlen Hroom)
    as (this' & H & Hc & _ & Hslot).
  exists this'. split; [done|]. intros k1 k2 s1 s2 Hk Hk2 Hs1 Hs2.
  assert (Hk1' : 1 ≤ k1 < count (_vertices this')) by lia.
  assert (Hk2' : 1 ≤ k2 < count (_vertices this')) by lia.
  destruct (stored_slot _ _ _ _ _ Hc Hslot Hk1' Hs1) as (r1 & Hr1 & ->).
  destruct (stored_slot _ _ _ _ _ Hc Hslot Hk2' Hs2) as (r2 & Hr2 & ->).
  assert (Hlt : (Z.to_nat (k1 - 1) < Z.to_nat (k2 - 1))%nat) by lia.
  pose proof (StronglySorted_lookup _ _ _ _ _ _
                (grid_runs_sorted env model) Hlt Hr1 Hr2) as Hb.
  apply list_elem_of_lookup_2 in Hr1, Hr2.
  destruct (grid_runs_resolve env model r1 Hg Hp Hr1) as [c1 Hc1].
  destruct (grid_runs_resolve env model r2 Hg Hp Hr2) as [c2 Hc2].
  unfold run_rectangle. rewrite Hc1, Hc2. unfold rectangle, rectangle_before.
  unfold Qlt, Qeq, Qle, Qplus, num. simpl. rewrite !Z.mul_1_r.
  destruct Hb as [Hb|[Hb1 Hb2]]; [left; nia|right].
  split; [by rewrite Hb1|nia].
Qed.

Lemma stored_rectangles_row_major_witness :
  grid_ok env_2x3 model_2x3 ∧ palette_ok env_2x3
  ∧ whole_rectangles (attributes (_vertices (new_RectangleRenderer env_2x3)))
  ∧ (8 ≤ length (attributes (_vertices (new_RectangleRenderer env_2x3))))%nat
  ∧ has_room env_2x3 model_2x3
      (attributes (_vertices (new_RectangleRenderer env_2x3)))
  ∧ 0 < scaledCellWidth (_dimensions env_2x3)
  ∧ 0 < scaledCellHeight (_dimensions env_2x3)
  ∧ ∃ this',
      updateBackgrounds env_2x3 model_2x3 (new_RectangleRenderer env_2x3)
      = Some this'
      ∧ ∀ s1 s2,
          slot (attributes (_vertices this')) 1 = Some s1 →
          slot (attributes (_vertices this')) 2 = Some s2 →
          rectangle_before s1 s2.
Proof.
  split; [apply grid_okb_ok; reflexivity|].
  split; [exact (palette_ok_env_of 2 3 10 20)|].
  split; [by exists 20%nat|].
  split; [simpl; lia|].
  split; [unfold has_room; vm_compute; discriminate|].
  split; [reflexivity|]. split; [reflexivity|].
  destruct (stored_rectangles_row_major env_2x3 model_2x3
              (new_RectangleRenderer env_2x3))
    as (this' & H & Hord);
    [apply grid_okb_ok; reflexivity | exact (palette_ok_env_of 2 3 10 20)
    | by exists 20%nat | simpl; lia
    | unfold has_room; vm_compute; discriminate | reflexivity | reflexivity |].
  exists this'. split; [exact H|]. intros s1 s2.
  apply (Hord 1 2); [lia|]. injection H as <-. simpl. lia.
Defined.

(** X11. [updateBackgrounds] writes the slots 1 to [count - 1] only: a
    float of slot 0, and a float at or after [count * 8], is what it was
    before the call, so the rectangles of an earlier, longer list stay in
    the buffer behind the new ones; what the buffer gains by growing
    is zero there. *)
Theorem updateBackgrounds_writes_confined env model this this' :
  whole_rectangles (attributes (_vertices this)) →
  updateBackgrounds env model this = Some this' →
  ∀ i : nat,
    ((i < 8)%nat ∨ count (_vertices this') * 8 ≤ Z.of_nat i) →
    (i < length (attributes (_vertices this')))%nat →
    attributes (_vertices this') !! i
    = if decide (i < length (attributes (_vertices this)))%nat
      then attributes (_vertices this) !! i else Some (num 0).
Proof.
  intros Hw. rewrite updateBackgrounds_runs. intros H.
  destruct (write_runs env _ 1 (_vertices this)) as [p|] eqn:H1; [|done].
  simpl in H. injection H as <-. simpl.
  pose proof (write_runs_length _ _ _ _ _ H1) as Hk.
  pose proof (length_rectangles env _ (write_runs_resolved _ _ _ _ _ H1)) as Hd.
  destruct (write_runs_closed env _ 1 _ _ ltac:(lia) Hw H1)
    as (pad & _ & -> & _).
  intros i Hi Hlen. rewrite length_inserts, length_app, length_replicate in Hlen.
  assert (E : list_inserts (Z.to_nat (1 * 8))
                (rectangles env (grid_runs env model))
                (attributes (_vertices this) ++ replicate pad (num 0)) !! i
              = (attributes (_vertices this) ++ replicate pad (num 0)) !! i).
  { destruct Hi as [Hi|Hi].
    - apply list_lookup_inserts_lt. lia.
    - apply list_lookup_inserts_ge. lia. }
  rewrite E. case_decide.
  - by apply lookup_app_l.
  - rewrite lookup_app_r by lia. apply lookup_replicate_2. lia.
Qed.

Lemma updateBackgrounds_writes_confined_witness :
  whole_rectangles (attributes (_vertices renderer_used))
  ∧ ∃ this',
      updateBackgrounds env_2x3 model_2x3 renderer_used = Some this'
      ∧ count (_vertices this') = 3
      ∧ attributes (_vertices this') !! 24%nat = Some (num 5).
Proof.
  split; [by exists 20%nat|].
  destruct (updateBackgrounds env_2x3 model_2x3 renderer_used)
    as [t|] eqn:H; [|vm_compute in H; discriminate].
  exists t. split; [reflexivity|].
  assert (Hc : count (_vertices t) = 3) by (by injection H as <-).
  split; [exact Hc|].
  rewrite (updateBackgrounds_writes_confined env_2x3 model_2x3 renderer_used t
             ltac:(by exists 20%nat) H 24%nat).
  - reflexivity.
  - right. rewrite Hc. lia.
  - injection H as <-. simpl. lia.
Defined.

(** ** How the methods compose *)

Lemma array_store_nat {A} (a : list A) i x :
  0 ≤ i → array_store a i x = <[Z.to_nat i := x]> a.
Proof. intros Hi. unfold array_store. by destruct (Z.ltb_spec i 0); [lia|]. Qed.

Lemma expandFloat32Array_insert a n (i : nat) x :
  (i < length a)%nat →
  expandFloat32Array (<[i := x]> a) n = <[i := x]> (expandFloat32Array a n).
Proof.
  intros Hi. unfold expandFloat32Array. rewrite length_insert.
  destruct (_ <? _); [|done]. by rewrite insert_app_l by lia.
Qed.

Lemma _updateRectangle_store_low env v offset bg sx ex y i x :
  0 ≤ i < offset → i < Z.of_nat (length (attributes v)) →
  _updateRectangle env (store_low i x v) offset bg sx ex y
  = store_low i x <$> _updateRectangle env v offset bg sx ex y.
Proof.
  intros Hi Hlen. unfold _updateRectangle.
  destruct (_updateRectangle_color env bg) as [c|]; [|done].
  cbn [mbind option_bind fmap option_fmap option_map]. f_equal.
  unfold store_low. cbn [attributes with_attributes count].
  rewrite !array_store_nat by lia. rewrite length_insert.
  destruct (Z.of_nat (length (attributes v)) <? offset + 4);
    cbn [attributes with_attributes count]; unfold with_attributes; f_equal.
  - rewrite !_addRectangle_inserts by lia.
    rewrite list_insert_inserts_lt by lia.
    by rewrite expandFloat32Array_insert by lia.
  - rewrite !_addRectangle_inserts by lia.
    by rewrite list_insert_inserts_lt by lia.
Qed.

Lemma length_store_low i x v :
  length (attributes (store_low i x v)) = length (attributes v).
Proof. apply length_array_store. Qed.

Lemma write_runs_store_low env rs i x : ∀ k v,
  0 ≤ i < k * 8 → i < Z.of_nat (length (attributes v)) →
  write_runs env rs k (store_low i x v)
  = (λ p, (p.1, store_low i x p.2)) <$> write_runs env rs k v.
Proof.
  induction rs as [|r rs IH]; intros k v Hi Hlen; [done|].
  cbn [write_runs]. unfold write_run.
  rewrite _updateRectangle_store_low by (unfold INDICES_PER_RECTANGLE; lia).
  destruct (_updateRectangle env v _ _ _ _ _) as [v'|] eqn:E; [|done].
  cbn [mbind option_bind fmap option_fmap option_map].
  apply IH; [lia|].
  unfold _updateRectangle in E.
  destruct (_updateRectangle_color env (run_bg r)); [|done].
  cbn [mbind option_bind] in E. injection E as <-.
  cbn [attributes with_attributes]. rewrite length__addRectangle.
  destruct (_ <? _); cbn [attributes with_attributes]; [|done].
  unfold expandFloat32Array. destruct (_ <? _); [|done].
  rewrite length_app. lia.
Qed.

Lemma updateBackgrounds_with_vertices env model this v :
  updateBackgrounds env model (with_vertices this v)
  = (p ← write_runs env (grid_runs env model) 1 v;
     Some (with_vertices this (with_count p.2 p.1))).
Proof. by rewrite updateBackgrounds_runs. Qed.

Lemma _updateViewportRectangle_stores env this :
  _vertices (_updateViewportRectangle env this)
  = store_low 7 (_bgFloat this).2
      (store_low 6 (_bgFloat this).1.2
         (store_low 5 (_bgFloat this).1.1.2
            (store_low 4 (_bgFloat this).1.1.1
               (store_low 3
                  (num (rows (_terminal env) * scaledCellHeight (_dimensions env)))
                  (store_low 2
                     (num (cols (_terminal env) * scaledCellWidth (_dimensions env)))
                     (store_low 1 (num 0)
                        (store_low 0 (num 0) (_vertices this)))))))).
Proof. by destruct this as [[[[c0 c1] c2] c3] ? ? ?]. Qed.

Lemma updateBackgrounds_cached env env' model this :
  updateBackgrounds env model (_updateCachedColors env' this)
  = _updateCachedColors env' <$> updateBackgrounds env model this.
Proof.
  rewrite !updateBackgrounds_runs. cbn [_vertices _updateCachedColors].
  by destruct (write_runs env _ 1 _).
Qed.

Lemma updateBackgrounds_viewport env env' model this :
  (8 ≤ length (attributes (_vertices this)))%nat →
  updateBackgrounds env model (_updateViewportRectangle env' this)
  = _updateViewportRectangle env' <$> updateBackgrounds env model this.
Proof.
  intros Hlen.
  assert (E : ∀ t, _updateViewportRectangle env' t
                   = with_vertices t (_vertices (_updateViewportRectangle env' t)))
    by done.
  rewrite (E this), updateBackgrounds_with_vertices, _updateViewportRectangle_stores.
  rewrite !write_runs_store_low by (rewrite ?length_store_low; lia).
  rewrite updateBackgrounds_runs.
  destruct (write_runs env _ 1 (_vertices this)) as [[k [a c]]|]; [|done].
  cbn [mbind option_bind fmap option_fmap option_map fst snd]. f_equal.
  rewrite (E (with_vertices _ _)), _updateViewportRectangle_stores. done.
Qed.

(** X12. [updateBackgrounds] commutes with [onResize] and with
    [onThemeChanged]: redrawing the viewport rectangle before or after the
    background rectangles gives the same renderer, and the same exception
    if there is one. *)
Theorem updateBackgrounds_viewport_commute env env' model this :
  (8 ≤ length (attributes (_vertices this)))%nat →
  updateBackgrounds env model (onResize env' this)
  = onResize env' <$> updateBackgrounds env model this
  ∧ updateBackgrounds env model (onThemeChanged env' this)
    = onThemeChanged env' <$> updateBackgrounds env model this.
Proof.
  intros Hlen. split; [by apply updateBackgrounds_viewport|].
  unfold onThemeChanged.
  rewrite updateBackgrounds_viewport by done.
  rewrite updateBackgrounds_cached.
  by destruct (updateBackgrounds env model this).
Qed.

Lemma updateBackgrounds_viewport_commute_witness :
  (8 ≤ length (attributes (_vertices renderer_used)))%nat
  ∧ updateBackgrounds env_2x3 model_2x3
      (onThemeChanged (env_of 24 80 10 20) renderer_used)
    = onThemeChanged (env_of 24 80 10 20)
      <$> updateBackgrounds env_2x3 model_2x3 renderer_used.
Proof.
  split; [simpl; lia|].
  apply (updateBackgrounds_viewport_commute env_2x3 (env_of 24 80 10 20)
           model_2x3 renderer_used).
  simpl; lia.
Defined.

Lemma updateBackgrounds_with_selectionVertices env model this sv :
  updateBackgrounds env model (with_selectionVertices this sv)
  = (λ t, with_selectionVertices t sv) <$> updateBackgrounds env model this.
Proof.
  rewrite !updateBackgrounds_runs. cbn [_vertices with_selectionVertices].
  by destruct (write_runs env _ 1 _).
Qed.

Lemma updateSelection_with_vertices env model columnSelectMode this v :
  updateSelection env model columnSelectMode (with_vertices this v)
  = (λ t, with_vertices t v) <$> updateSelection env model columnSelectMode this.
Proof.
  unfold updateSelection. cbv zeta. cbn [_selectionVertices with_vertices].
  destruct (hasSelection model); cbn [negb]; [|done].
  destruct columnSelectMode.
  - destruct (typed_set (vertices _) _); [|done]. cbn [mbind option_bind].
    by destruct (typed_set (outlineIndices _) _).
  - destruct (typed_set (vertices _) _); [|done]. cbn [mbind option_bind].
    by destruct (typed_set (outlineIndices _) _).
Qed.

Lemma updateSelection_frame env model columnSelectMode this this' :
  updateSelection env model columnSelectMode this = Some this' →
  this' = with_selectionVertices this (_selectionVertices this').
Proof.
  unfold updateSelection. cbv zeta.
  destruct (hasSelection model); cbn [negb]; [|by intros [= <-]].
  destruct columnSelectMode.
  - destruct (typed_set (vertices _) _); [|done]. cbn [mbind option_bind].
    destruct (typed_set (outlineIndices _) _); [|done]. by intros [= <-].
  - destruct (typed_set (vertices _) _); [|done]. cbn [mbind option_bind].
    destruct (typed_set (outlineIndices _) _); [|done]. by intros [= <-].
Qed.

Lemma updateBackgrounds_frame env model this this' :
  updateBackgrounds env model this = Some this' →
  this' = with_vertices this (_vertices this').
Proof.
  rewrite updateBackgrounds_runs.
  destruct (write_runs env _ 1 _); [|done]. by intros [= <-].
Qed.

(** X13. [updateBackgrounds] and [updateSelection] act on separate parts of
    the renderer: the first changes only the rectangle buffer and its
    count, the second only the selection arrays, and calling them in
    either order gives the same renderer, or an exception in both
    orders. *)
Theorem updateBackgrounds_updateSelection_commute
    env1 env2 model smodel columnSelectMode this :
  (this1 ← updateSelection env1 smodel columnSelectMode this;
   updateBackgrounds env2 model this1)
  = (this1 ← updateBackgrounds env2 model this;
     updateSelection env1 smodel columnSelectMode this1)
  ∧ (∀ this', updateBackgrounds env2 model this = Some this' →
       _selectionVertices this' = _selectionVertices this
       ∧ _bgFloat this' = _bgFloat this
       ∧ _selectionFloat this' = _selectionFloat this)
  ∧ (∀ this', updateSelection env1 smodel columnSelectMode this = Some this' →
       _vertices this' = _vertices this
       ∧ _bgFloat this' = _bgFloat this
       ∧ _selectionFloat this' = _selectionFloat this).
Proof.
  split; [|split].
  - destruct (updateSelection env1 smodel columnSelectMode this) as [s1|] eqn:ES;
      destruct (updateBackgrounds env2 model this) as [b1|] eqn:EB;
      cbn [mbind option_bind].
    + rewrite (updateSelection_frame _ _ _ _ _ ES).
      rewrite updateBackgrounds_with_selectionVertices, EB.
      rewrite (updateBackgrounds_frame _ _ _ _ EB) at 2.
      rewrite updateSelection_with_vertices, ES.
      cbn [fmap option_fmap option_map]. f_equal.
      rewrite (updateBackgrounds_frame _ _ _ _ EB) at 1.
      rewrite (updateSelection_frame _ _ _ _ _ ES) at 2. done.
    + rewrite (updateSelection_frame _ _ _ _ _ ES).
      by rewrite updateBackgrounds_with_selectionVertices, EB.
    + rewrite (updateBackgrounds_frame _ _ _ _ EB).
      by rewrite updateSelection_with_vertices, ES.
    + done.
  - intros this' H. by rewrite (updateBackgrounds_frame _ _ _ _ H).
  - intros this' H. by rewrite (updateSelection_frame _ _ _ _ _ H).
Qed.

(** ** What holds after any sequence of calls *)

Lemma updateSelection_is_Some env model columnSelectMode this :
  selection_wf this →
  is_Some (updateSelection env model columnSelectMode this).
Proof.
  intros [Hv Ho]. unfold updateSelection. cbv zeta.
  destruct (hasSelection model); cbn [negb]; [|eauto].
  destruct columnSelectMode.
  - rewrite (typed_set_prefix (vertices _)) by (rewrite Hv; simpl; lia).
    cbn [mbind option_bind].
    rewrite (typed_set_full (outlineIndices _)) by (rewrite Ho; reflexivity).
    cbn [mbind option_bind]. eauto.
  - rewrite (typed_set_full (vertices _)) by (rewrite Hv; reflexivity).
    cbn [mbind option_bind].
    rewrite (typed_set_full (outlineIndices _))
      by (rewrite Ho; by repeat case_match).
    cbn [mbind option_bind]. eauto.
Qed.

Lemma renderer_wf_call this this' :
  renderer_wf this → call this this' → renderer_wf this'.
Proof.
  intros (Hw & Hcap & Hv & Ho & Hc) Hcall.
  destruct Hcall as [env this|env this|env model csm this this' H
                    |env model this this' H].
  - repeat split; try done.
    + by apply whole_rectangles_onResize.
    + unfold onResize, _updateViewportRectangle.
      cbn [_vertices with_vertices attributes with_attributes].
      by rewrite length__addRectangleFloat.
  - repeat split; try done.
    + by apply whole_rectangles_onThemeChanged.
    + unfold onThemeChanged, _updateViewportRectangle.
      cbn [_vertices with_vertices attributes with_attributes _updateCachedColors].
      by rewrite length__addRectangleFloat.
  - destruct (selection_wf_updateSelection _ _ _ _ _ (conj Hv Ho) H) as [Hv' Ho'].
    assert (E : _vertices this' = _vertices this)
      by (by rewrite (updateSelection_frame _ _ _ _ _ H)).
    unfold renderer_wf. rewrite E. by repeat split.
  - pose proof (whole_rectangles_updateBackgrounds _ _ _ _ Hw H).
    pose proof (length_updateBackgrounds _ _ _ _ Hw H).
    pose proof (updateBackgrounds_count _ _ _ _ H).
    assert (E : _selectionVertices this' = _selectionVertices this)
      by (by rewrite (updateBackgrounds_frame _ _ _ _ H)).
    unfold renderer_wf. rewrite E. repeat split; try done; lia.
Qed.

(** X14. After the constructor and any sequence of calls that return, the
    attribute buffer holds a whole number of rectangles and at least the
    20 it starts with, the selection arrays have the sizes the draw calls
    of [renderSelection] read (10 vertices of 4 floats, 16 outline
    indices), the count is not negative, and [updateSelection] returns
    whatever its arguments are. *)
Theorem reachable_invariant this :
  reachable this →
  renderer_wf this
  ∧ ∀ env model columnSelectMode,
      is_Some (updateSelection env model columnSelectMode this).
Proof.
  intros Hr.
  assert (Hwf : renderer_wf this).
  { induction Hr as [env|this this' _ IH Hcall].
    - repeat split; try done. by exists 20%nat.
    - by eapply renderer_wf_call. }
  split; [done|]. intros env model csm.
  destruct Hwf as (_ & _ & Hv & Ho & _).
  by apply updateSelection_is_Some.
Qed.

Lemma reachable_invariant_witness :
  reachable (onThemeChanged (env_of 24 80 10 20) (new_RectangleRenderer env_2x3))
  ∧ renderer_wf
      (onThemeChanged (env_of 24 80 10 20) (new_RectangleRenderer env_2x3)).
Proof.
  assert (H : reachable (onThemeChanged (env_of 24 80 10 20)
                           (new_RectangleRenderer env_2x3))).
  { apply (reachable_call (new_RectangleRenderer env_2x3));
      [apply reachable_new|apply call_onThemeChanged]. }
  split; [exact H|].
  apply (reachable_invariant
           (onThemeChanged (env_of 24 80 10 20) (new_RectangleRenderer env_2x3))
           H).
Defined.

(** ** The selection as drawn *)

Lemma updateSelection_range env model this :
  selection_wf this → hasSelection model = true →
  updateSelection env model false this
  = Some (with_selectionVertices this
            {| vertices := range_vertices env model;
               outlineIndices := range_outline env model |}).
Proof.
  intros [Hv Ho] Hs. unfold updateSelection. rewrite Hs. cbn [negb]. cbv zeta.
  rewrite (typed_set_full (vertices _)) by (rewrite Hv; reflexivity).
  cbn [mbind option_bind].
  rewrite (typed_set_full (outlineIndices _))
    by (rewrite Ho; by repeat case_match).
  reflexivity.
Qed.

Lemma updateSelection_column env model this :
  selection_wf this → hasSelection model = true →
  updateSelection env model true this
  = Some (with_selectionVertices this
            {| vertices := column_vertices env model;
               outlineIndices := outline_single_row |}).
Proof.
  intros [Hv Ho] Hs. unfold updateSelection. rewrite Hs. cbn [negb]. cbv zeta.
  rewrite (typed_set_prefix (vertices _)) by (rewrite Hv; simpl; lia).
  cbn [mbind option_bind].
  rewrite (typed_set_full (outlineIndices _)) by (rewrite Ho; reflexivity).
  cbn [mbind option_bind]. do 2 f_equal.
  match goal with
  | |- {| vertices := fill (?src ++ ?rest) _ _; outlineIndices := _ |} = _ =>
      change (4 * 4)%nat with (length src); rewrite fill_prefix
  end.
  by rewrite length_drop, Hv.
Qed.

Ltac each_of tac := repeat (apply List.Forall_cons; [tac|]); apply List.Forall_nil.

Ltac aligned :=
  do 4 eexists; split; [reflexivity|]; split; [reflexivity|];
  ((left; reflexivity) || (right; reflexivity)).

(** X15. With a selection, in either mode, the outline that
    [updateSelection] leaves names only the ten vertices, its segments
    follow one another in closed loops (the padding pairs are loops of one
    point), and every segment is horizontal or vertical between the
    positions written by the same call. *)
Theorem outline_well_formed env model columnSelectMode this :
  selection_wf this → hasSelection model = true →
  ∃ this',
    updateSelection env model columnSelectMode this = Some this'
    ∧ Forall (λ i, 0 ≤ i < SELECTION_VERTEX_COUNT)
        (outlineIndices (_selectionVertices this'))
    ∧ closed_loops (outlineIndices (_selectionVertices this')) = true
    ∧ Forall (axis_aligned (vertices (_selectionVertices this')))
        (segments (outlineIndices (_selectionVertices this'))).
Proof.
  intros Hwf Hs. destruct columnSelectMode.
  - rewrite (updateSelection_column _ _ _ Hwf Hs). eexists. split; [done|].
    cbn [_selectionVertices with_selectionVertices outlineIndices vertices].
    split; [each_of ltac:(unfold SELECTION_VERTEX_COUNT; lia)|].
    split; [done|]. each_of aligned.
  - rewrite (updateSelection_range _ _ _ Hwf Hs). eexists. split; [done|].
    cbn [_selectionVertices with_selectionVertices outlineIndices vertices].
    unfold range_outline.
    destruct (_ =? 0); [|destruct (_ && _)];
      (split; [each_of ltac:(unfold SELECTION_VERTEX_COUNT; lia)|];
       split; [done|]; each_of aligned).
Qed.

Lemma outline_well_formed_witness :
  selection_wf renderer_with_selection
  ∧ hasSelection selection_three_rows = true
  ∧ ∃ this',
      updateSelection (env_of 24 80 10 20) selection_three_rows false
        renderer_with_selection = Some this'
      ∧ outlineIndices (_selectionVertices this') = outline_staircase
      ∧ closed_loops (outlineIndices (_selectionVertices this')) = true.
Proof.
  split; [split; reflexivity|]. split; [reflexivity|].
  destruct (outline_well_formed (env_of 24 80 10 20) selection_three_rows false
              renderer_with_selection)
    as (this' & H & _ & Hc & _); [split; reflexivity|reflexivity|].
  exists this'. split; [exact H|]. split; [|exact Hc].
  by injection H as <-.
Defined.

(** X16. The fill that [renderSelection] draws is made of three quads, two
    triangles each.  In range-select mode [updateSelection] places them as
    three rectangles one under the other: the first row from the start
    column to [startRowEndCol], the middle rows over the full width
    computed for the first row, the last row from the left edge to the end
    column.  When the end row is below the start row the first row runs to
    the last column and the three bands are the start row, the rows
    between, and the end row; on a single row the second and third band
    have no height.  In column-select mode the first quad is the block
    from the start to the end column over the rows, and the other vertices
    are at the origin. *)
Theorem selection_fill_rectangles env model this :
  selection_wf this → hasSelection model = true →
  let w := scaledCellWidth (_dimensions env) in
  let h := scaledCellHeight (_dimensions env) in
  let sr := viewportCappedStartRow model in
  let er := viewportCappedEndRow model in
  let sc := local_startCol model in
  let ec := local_endCol env model in
  let rc := startRowEndCol env model in
  let m := middleRowsCount model in
  quads selectionIndexBuffer = [(0, 1, 2, 3); (4, 3, 5, 6); (5, 7, 8, 9)]
  ∧ (∃ this',
       updateSelection env model false this = Some this'
       ∧ is_rectangle (vertices (_selectionVertices this')) (0, 1, 2, 3)
           (num (w * sc)) (num (h * sr)) (num (w * rc)) (num (h * (sr + 1)))
       ∧ is_rectangle (vertices (_selectionVertices this')) (4, 3, 5, 6)
           (num (w * 0)) (num (h * (sr + 1)))
           (num (w * rc)) (num (h * (sr + 1 + m)))
       ∧ is_rectangle (vertices (_selectionVertices this')) (5, 7, 8, 9)
           (num (w * 0)) (num (h * (sr + 1 + m)))
           (num (w * ec)) (num (h * (er + 1))))
  ∧ (sr < er → rc = cols (_terminal env) ∧ sr + 1 + m = er)
  ∧ (sr = er → rc = endCol model ∧ sr + 1 + m = er + 1)
  ∧ (∃ this',
       updateSelection env model true this = Some this'
       ∧ is_rectangle (vertices (_selectionVertices this')) (0, 1, 2, 3)
           (num (w * sc)) (num (h * sr)) (num (w * ec)) (num (h * (er + 1)))
       ∧ ∀ i, 4 ≤ i ≤ 9 →
           vertex_xy (vertices (_selectionVertices this')) i
           = Some (num 0, num 0)).
Proof.
  intros Hwf Hs w h sr er sc ec rc m. split; [done|]. split; [|split; [|split]].
  - rewrite (updateSelection_range _ _ _ Hwf Hs). eexists. split; [done|].
    by repeat split.
  - intros Hlt. subst rc m sr er. unfold startRowEndCol, middleRowsCount.
    destruct (Z.eqb_spec (viewportCappedStartRow model)
                (viewportCappedEndRow model)); lia.
  - intros Heq. subst rc m sr er. unfold startRowEndCol, middleRowsCount.
    destruct (Z.eqb_spec (viewportCappedStartRow model)
                (viewportCappedEndRow model)); [split; [done|lia]|done].
  - rewrite (updateSelection_column _ _ _ Hwf Hs). eexists. split; [done|].
    split; [by repeat split|].
    intros i Hi.
    assert (i = 4 ∨ i = 5 ∨ i = 6 ∨ i = 7 ∨ i = 8 ∨ i = 9)
      as [->|[->|[->|[->|[->| ->]]]]] by lia; reflexivity.
Qed.

Lemma selection_fill_rectangles_witness :
  selection_wf renderer_with_selection
  ∧ hasSelection selection_three_rows = true
  ∧ ∃ this',
      updateSelection (env_of 24 80 10 20) selection_three_rows false
        renderer_with_selection = Some this'
      ∧ is_rectangle (vertices (_selectionVertices this')) (0, 1, 2, 3)
          (num 50) (num 20) (num 800) (num 40)
      ∧ is_rectangle (vertices (_selectionVertices this')) (4, 3, 5, 6)
          (num 0) (num 40) (num 800) (num 60)
      ∧ is_rectangle (vertices (_selectionVertices this')) (5, 7, 8, 9)
          (num 0) (num 60) (num 20) (num 80).
Proof.
  split; [split; reflexivity|]. split; [reflexivity|].
  pose proof (selection_fill_rectangles (env_of 24 80 10 20)
                selection_three_rows renderer_with_selection
                (conj eq_refl eq_refl) eq_refl) as P.
  cbv zeta in P. destruct P as (_ & (this' & H & Q1 & Q2 & Q3) & _).
  exists this'. split; [exact H|]. split; [exact Q1|]. split; [exact Q2|exact Q3].
Defined.

(** X17. With a selection, what [updateSelection] leaves in the selection
    arrays depends on its arguments only, not on what the arrays held; and
    with or without a selection, calling it a second time with the same
    arguments changes nothing. *)
Theorem updateSelection_fresh env model columnSelectMode this1 this2 :
  selection_wf this1 → selection_wf this2 →
  ∃ this1' this2',
    updateSelection env model columnSelectMode this1 = Some this1'
    ∧ updateSelection env model columnSelectMode this2 = Some this2'
    ∧ (hasSelection model = true →
         _selectionVertices this1' = _selectionVertices this2')
    ∧ updateSelection env model columnSelectMode this1' = Some this1'.
Proof.
  intros Hwf1 Hwf2. destruct (hasSelection model) eqn:Hs.
  - destruct columnSelectMode.
    + rewrite !updateSelection_column by done. do 2 eexists.
      split; [done|]. split; [done|]. split; [done|].
      by rewrite updateSelection_column by (exact Hs || (split; reflexivity)).
    + rewrite !updateSelection_range by done. do 2 eexists.
      split; [done|]. split; [done|]. split; [done|].
      by rewrite updateSelection_range
        by (exact Hs
            || (split; [reflexivity|unfold range_outline; cbn; by repeat case_match])).
  - unfold updateSelection. rewrite Hs. cbn [negb]. cbv zeta.
    do 2 eexists. split; [done|]. split; [done|]. split; [done|].
    cbn [_selectionVertices with_selectionVertices vertices outlineIndices].
    rewrite !fill_all, length_replicate. done.
Qed.

Lemma updateSelection_fresh_witness :
  selection_wf (new_RectangleRenderer (env_of 24 80 10 20))
  ∧ selection_wf renderer_with_selection
  ∧ ∃ this1' this2',
      updateSelection (env_of 24 80 10 20) selection_three_rows false
        (new_RectangleRenderer (env_of 24 80 10 20)) = Some this1'
      ∧ updateSelection (env_of 24 80 10 20) selection_three_rows false
          renderer_with_selection = Some this2'
      ∧ _selectionVertices this1' = _selectionVertices this2'
      ∧ updateSelection (env_of 24 80 10 20) selection_three_rows false this1'
        = Some this1'.
Proof.
  split; [split; reflexivity|]. split; [split; reflexivity|].
  destruct (updateSelection_fresh (env_of 24 80 10 20) selection_three_rows false
              (new_RectangleRenderer (env_of 24 80 10 20))
              renderer_with_selection)
    as (t1 & t2 & H1 & H2 & He & Hi); [split; reflexivity|split; reflexivity|].
  exists t1, t2. split; [exact H1|]. split; [exact H2|].
  split; [apply He; reflexivity|exact Hi].
Defined.

(** X18. When the buffer has room, the count and the rectangles in the
    slots 1 to [count - 1] after [updateBackgrounds] are determined by the
    grid, the palette and the cell size: they are the same whatever the
    buffer held before the call. *)
Theorem updateBackgrounds_fresh env model this1 this2 :
  grid_ok env model → palette_ok env →
  whole_rectangles (attributes (_vertices this1)) →
  (8 ≤ length (attributes (_vertices this1)))%nat →
  has_room env model (attributes (_vertices this1)) →
  whole_rectangles (attributes (_vertices this2)) →
  (8 ≤ length (attributes (_vertices this2)))%nat →
  has_room env model (attributes (_vertices this2)) →
  ∃ this1' this2',
    updateBackgrounds env model this1 = Some this1'
    ∧ updateBackgrounds env model this2 = Some this2'
    ∧ count (_vertices this1') = count (_vertices this2')
    ∧ ∀ k, 1 ≤ k < count (_vertices this1') →
        is_Some (slot (attributes (_vertices this1')) k)
        ∧ slot (attributes (_vertices this1')) k
          = slot (attributes (_vertices this2')) k.
Proof.
  intros Hg Hp Hw1 Hl1 Hr1 Hw2 Hl2 Hr2.
  destruct (updateBackgrounds_stored env model this1 Hg Hp Hw1 Hl1 Hr1)
    as (t1 & H1 & Hc1 & _ & Hs1).
  destruct (updateBackgrounds_stored env model this2 Hg Hp Hw2 Hl2 Hr2)
    as (t2 & H2 & Hc2 & _ & Hs2).
  exists t1, t2. split; [done|]. split; [done|]. split; [congruence|].
  intros k Hk.
  destruct (lookup_lt_is_Some_2 (grid_runs env model) (Z.to_nat (k - 1)))
    as [r Hr]; [lia|].
  pose proof (Hs1 _ _ Hr) as E1. pose proof (Hs2 _ _ Hr) as E2.
  replace (1 + Z.of_nat (Z.to_nat (k - 1))) with k in E1, E2 by lia.
  rewrite E1, E2. eauto.
Qed.

Lemma updateBackgrounds_fresh_witness :
  grid_ok env_2x3 model_2x3 ∧ palette_ok env_2x3
  ∧ whole_rectangles (attributes (_vertices (new_RectangleRenderer env_2x3)))
  ∧ (8 ≤ length (attributes (_vertices (new_RectangleRenderer env_2x3))))%nat
  ∧ has_room env_2x3 model_2x3
      (attributes (_vertices (new_RectangleRenderer env_2x3)))
  ∧ whole_rectangles (attributes (_vertices renderer_used))
  ∧ (8 ≤ length (attributes (_vertices renderer_used)))%nat
  ∧ has_room env_2x3 model_2x3 (attributes (_vertices renderer_used))
  ∧ ∃ this1' this2',
      updateBackgrounds env_2x3 model_2x3 (new_RectangleRenderer env_2x3)
      = Some this1'
      ∧ updateBackgrounds env_2x3 model_2x3 renderer_used = Some this2'
      ∧ count (_vertices this1') = count (_vertices this2')
      ∧ slot (attributes (_vertices this1')) 2
        = slot (attributes (_vertices this2')) 2.
Proof.
  split; [apply grid_okb_ok; reflexivity|].
  split; [exact (palette_ok_env_of 2 3 10 20)|].
  split; [by exists 20%nat|].
  split; [simpl; lia|].
  split; [unfold has_room; vm_compute; discriminate|].
  split; [by exists 20%nat|].
  split; [simpl; lia|].
  split; [unfold has_room; vm_compute; discriminate|].
  destruct (updateBackgrounds_fresh env_2x3 model_2x3
              (new_RectangleRenderer env_2x3) renderer_used)
    as (t1 & t2 & H1 & H2 & Hc & Hk);
    [apply grid_okb_ok; reflexivity | exact (palette_ok_env_of 2 3 10 20)
    | by exists 20%nat | simpl; lia
    | unfold has_room; vm_compute; discriminate
    | by exists 20%nat | simpl; lia
    | unfold has_room; vm_compute; discriminate |].
  exists t1, t2. split; [exact H1|]. split; [exact H2|]. split; [exact Hc|].
  apply (Hk 2). injection H1 as <-. simpl. lia.
Defined.
